(** * node-trafilatura: the Python command-line glue, verified

    A shallow embedding of the five Python sources
    ([arg_parser.py], [file_reader.py], [error_handler.py],
    [extract-recall.py], [trafilatura-recall-extractor.py]) and the
    properties the specification states about them.

    The programs are effectful: they read [sys.argv] and the filesystem,
    call the external [trafilatura.extract], write to the two standard
    streams and raise exceptions.  They are embedded in a reader/state/
    exception monad [M]: the [World] is what the process finds around it,
    the [Proc] record is what it has done so far. *)

From Stdlib Require Import String Ascii List ZArith Bool Lia DecimalString.
Import ListNotations.
Open Scope string_scope.

(** ** Python values and exceptions *)

(** The few Python values the scripts handle: [extract] returns a string or
    [None], [sys.exit] takes an integer. *)
Inductive pyval : Type :=
| PyNone
| PyStr (s : string)
| PyInt (n : Z).

(** [str(v)], as [print] and f-strings apply it. *)
Definition str (v : pyval) : string :=
  match v with
  | PyNone => "None"
  | PyStr s => s
  | PyInt n => NilZero.string_of_int (Z.to_int n)
  end.

(** The exception classes that matter here, with single inheritance as in
    the builtin hierarchy; [UserClass] stands for a class defined by a
    library, deriving from [base]. *)
Inductive pyclass : Type :=
| BaseException
| SystemExit
| KeyboardInterrupt
| Exception
| ValueError
| UnicodeError
| UnicodeDecodeError
| LookupError
| IndexError
| OSError
| FileNotFoundError
| PermissionError
| IsADirectoryError
| RuntimeError
| MemoryError
| UserClass (name : string) (base : pyclass).

(** [IOError] is an alias of [OSError] since Python 3.3. *)
Definition IOError : pyclass := OSError.

(** The class followed by its ancestors (its method resolution order). *)
Fixpoint mro (c : pyclass) : list pyclass :=
  match c with
  | BaseException => [BaseException]
  | SystemExit => [SystemExit; BaseException]
  | KeyboardInterrupt => [KeyboardInterrupt; BaseException]
  | Exception => [Exception; BaseException]
  | ValueError => [ValueError; Exception; BaseException]
  | UnicodeError => [UnicodeError; ValueError; Exception; BaseException]
  | UnicodeDecodeError =>
      [UnicodeDecodeError; UnicodeError; ValueError; Exception; BaseException]
  | LookupError => [LookupError; Exception; BaseException]
  | IndexError => [IndexError; LookupError; Exception; BaseException]
  | OSError => [OSError; Exception; BaseException]
  | FileNotFoundError => [FileNotFoundError; OSError; Exception; BaseException]
  | PermissionError => [PermissionError; OSError; Exception; BaseException]
  | IsADirectoryError => [IsADirectoryError; OSError; Exception; BaseException]
  | RuntimeError => [RuntimeError; Exception; BaseException]
  | MemoryError => [MemoryError; Exception; BaseException]
  | UserClass _ base => c :: mro base
  end.

Definition builtin_tag (c : pyclass) : nat :=
  match c with
  | BaseException => 0 | SystemExit => 1 | KeyboardInterrupt => 2
  | Exception => 3 | ValueError => 4 | UnicodeError => 5
  | UnicodeDecodeError => 6 | LookupError => 7 | IndexError => 8
  | OSError => 9 | FileNotFoundError => 10 | PermissionError => 11
  | IsADirectoryError => 12 | RuntimeError => 13 | MemoryError => 14
  | UserClass _ _ => 15
  end.

Fixpoint pyclass_eqb (c d : pyclass) : bool :=
  match c, d with
  | UserClass n b, UserClass m b' => String.eqb n m && pyclass_eqb b b'
  | _, _ => Nat.eqb (builtin_tag c) (builtin_tag d)
  end.

(** [issubclass(c, d)]. *)
Definition issubclass (c d : pyclass) : bool :=
  existsb (pyclass_eqb d) (mro c).

(** An exception instance: its class, its single argument (so that
    [str(e)] is [str] of it) and the exception that was being handled when
    it was raised ([__context__]). *)
#[warnings="-register-all"]
Inductive pyexc : Type :=
  mkExc { exc_class : pyclass;
          exc_arg : pyval;
          exc_context : option pyexc }.

(** [str(e)], the text an f-string [{e}] produces. *)
Definition str_exc (e : pyexc) : string := str (exc_arg e).

(** [isinstance(e, d)], the test an [except d] clause makes. *)
Definition isinstance (e : pyexc) (d : pyclass) : bool :=
  issubclass (exc_class e) d.

(** [cls(msg)], a fresh exception with a message. *)
Definition new_exc (cls : pyclass) (msg : string) : pyexc :=
  mkExc cls (PyStr msg) None.

(** What a call does: return a value or raise. *)
Inductive outcome (A : Type) : Type :=
| Ok (a : A)
| Raised (e : pyexc).
Arguments Ok {A} a.
Arguments Raised {A} e.

(** ** The world around the process *)

(** What [pathlib] finds at a path: nothing, something that is not a
    regular file, or a regular file together with what
    [read_text(encoding="utf-8")] does on it (the decoded text, or the
    exception the open, the read or the decoding raises). *)
Inductive fs_entry : Type :=
| Absent
| Directory
| Special
| Regular (read : outcome string).

(** One call of the external collaborator: [extract(content,
    favor_recall=..., output_format=...)]; [None] for the format when the
    keyword is not passed. *)
Record extract_call : Type :=
  mkCall { call_content : string;
           call_favor_recall : bool;
           call_output_format : option string }.

Record World : Type :=
  mkWorld { sys_argv : list string;
            (** the entry [Path(p)] resolves to *)
            fs : string -> fs_entry;
            (** the collaborator, a black box *)
            trafilatura_extract : extract_call -> outcome pyval }.

(** The parts of the program, to tell where a [sys.exit] call is written. *)
Inductive component : Type :=
| ArgumentParser
| FileReader
| ExtractionCall
| ErrorHandler
| StandaloneScript.

(** What the process has done so far.  [extract_calls] and [exit_sites]
    are logs kept for the proofs: the collaborator calls made, and the
    component in whose body each executed [sys.exit] is written. *)
Record Proc : Type :=
  mkProc { stdout : string;
           stderr : string;
           extract_calls : list extract_call;
           exit_sites : list component }.

Definition proc0 : Proc := mkProc "" "" [] [].

(** ** The monad *)

Definition M (A : Type) : Type := World -> Proc -> outcome A * Proc.

Definition ret {A} (a : A) : M A := fun _ p => (Ok a, p).

Definition bind {A B} (m : M A) (k : A -> M B) : M B :=
  fun w p =>
    match m w p with
    | (Ok a, p') => k a w p'
    | (Raised e, p') => (Raised e, p')
    end.

Notation "x <- m ;; k" := (bind m (fun x => k))
  (at level 61, m at next level, right associativity).
Notation "m ;; k" := (bind m (fun _ => k))
  (at level 61, right associativity).
Notation "' pat <- m ;; k" := (bind m (fun x => match x with pat => k end))
  (at level 61, pat pattern, m at next level, right associativity).

(** [raise e]. *)
Definition raise_ {A} (e : pyexc) : M A := fun _ p => (Raised e, p).

(** The [__context__] a raise inside an [except] block gets. *)
Definition with_context (e' handled : pyexc) : pyexc :=
  match exc_context e' with
  | None => mkExc (exc_class e') (exc_arg e') (Some handled)
  | Some _ => e'
  end.

(** The first [except] clause whose class the exception is an instance of. *)
Fixpoint find_clause {A} (e : pyexc) (clauses : list (pyclass * (pyexc -> M A)))
  : option (pyexc -> M A) :=
  match clauses with
  | [] => None
  | (cls, h) :: rest => if isinstance e cls then Some h else find_clause e rest
  end.

(** [try: body  except C1 as e: h1  except C2 as e: h2 ...]. *)
Definition try_except {A} (body : M A) (clauses : list (pyclass * (pyexc -> M A)))
  : M A :=
  fun w p =>
    match body w p with
    | (Ok a, p') => (Ok a, p')
    | (Raised e, p') =>
        match find_clause e clauses with
        | None => (Raised e, p')
        | Some h =>
            match h e w p' with
            | (Ok a, p'') => (Ok a, p'')
            | (Raised e', p'') => (Raised (with_context e' e), p'')
            end
        end
    end.

(** ** The primitives the scripts use *)

(** [len(sys.argv)]. *)
Definition len_sys_argv : M nat := fun w p => (Ok (length (sys_argv w)), p).

(** [sys.argv[i]]; Python raises [IndexError] out of range. *)
Definition sys_argv_at (i : nat) : M string :=
  fun w p =>
    match nth_error (sys_argv w) i with
    | Some a => (Ok a, p)
    | None => (Raised (new_exc IndexError "list index out of range"), p)
    end.

(** The newline character, Python's ["\n"]. *)
Definition nl : string := String "010"%char EmptyString.

(** [sys.stdout.write(s)] and [sys.stderr.write(s)]. *)
Definition stdout_write (s : string) : M unit :=
  fun _ p => (Ok tt, mkProc (stdout p ++ s) (stderr p) (extract_calls p) (exit_sites p)).

Definition stderr_write (s : string) : M unit :=
  fun _ p => (Ok tt, mkProc (stdout p) (stderr p ++ s) (extract_calls p) (exit_sites p)).

(** [print(v)]: [str(v)] and a newline on standard output. *)
Definition print (v : pyval) : M unit := stdout_write (str v ++ nl).

(** [sys.exit(code)], written in the body of [site]: raises
    [SystemExit(code)]. *)
Definition sys_exit {A} (site : component) (code : Z) : M A :=
  fun _ p =>
    (Raised (mkExc SystemExit (PyInt code) None),
     mkProc (stdout p) (stderr p) (extract_calls p) (exit_sites p ++ [site])).

(** [Path(p).exists()], [Path(p).is_file()], [Path(p).read_text("utf-8")]. *)
Definition path_exists (path : string) : M bool :=
  fun w p => (Ok (match fs w path with Absent => false | _ => true end), p).

Definition path_is_file (path : string) : M bool :=
  fun w p => (Ok (match fs w path with Regular _ => true | _ => false end), p).

Definition path_read_text (path : string) : M string :=
  fun w p =>
    match fs w path with
    | Regular r => (r, p)
    | Absent =>
        (Raised (mkExc FileNotFoundError
                   (PyStr ("[Errno 2] No such file or directory: '" ++ path ++ "'"))
                   None), p)
    | Directory =>
        (Raised (mkExc IsADirectoryError
                   (PyStr ("[Errno 21] Is a directory: '" ++ path ++ "'")) None), p)
    | Special =>
        (Raised (mkExc OSError
                   (PyStr ("[Errno 6] No such device or address: '" ++ path ++ "'"))
                   None), p)
    end.

(** [trafilatura.extract(content, favor_recall=fr, output_format=fmt)]. *)
Definition extract (content : string) (favor_recall : bool)
  (output_format : option string) : M pyval :=
  fun w p =>
    let c := mkCall content favor_recall output_format in
    (trafilatura_extract w c,
     mkProc (stdout p) (stderr p) (extract_calls p ++ [c]) (exit_sites p)).

(** How the interpreter turns the end of the script into an exit status:
    0 when it runs to its end, the code of an uncaught [SystemExit], 1 for
    any other uncaught exception. *)
Definition exit_status {A} (r : outcome A) : Z :=
  match r with
  | Ok _ => 0
  | Raised e =>
      if isinstance e SystemExit then
        match exc_arg e with
        | PyInt n => n
        | PyNone => 0
        | PyStr _ => 1
        end
      else 1
  end%Z.

(** Running a script in a fresh process. *)
Definition run_script {A} (script : M A) (w : World) : Z * Proc :=
  let (r, p) := script w proc0 in (exit_status r, p).

(** ** arg_parser.py *)
Module arg_parser.

Definition valid_formats : list string := ["html"; "txt"].

(** [x in l] on a list of strings. *)
Definition str_in (x : string) (l : list string) : bool :=
  existsb (String.eqb x) l.

Definition get_args_from_command_line : M (string * string) :=
  n <- len_sys_argv ;;
  if Nat.ltb n 3 then
    raise_ (new_exc ValueError "Usage: <script> <file_path> <output_format>")
  else
    file_path <- sys_argv_at 1 ;;
    output_format <- sys_argv_at 2 ;;
    if negb (str_in output_format valid_formats) then
      raise_ (new_exc ValueError
                ("Invalid output format: " ++ output_format
                 ++ ". Valid formats: " ++ String.concat ", " valid_formats))
    else
      ret (file_path, output_format).

End arg_parser.

(** ** file_reader.py *)
Module file_reader.

(** [path = Path(file_path)]: the checks and the read go through [path],
    the messages quote [file_path] as given. *)
Definition read_file_content (file_path : string) : M string :=
  let path := file_path in
  ex <- path_exists path ;;
  if negb ex then
    raise_ (new_exc FileNotFoundError ("File not found: " ++ file_path))
  else
    isf <- path_is_file path ;;
    if negb isf then
      raise_ (new_exc ValueError ("Path is not a file: " ++ file_path))
    else
      content <- try_except (path_read_text path)
                   [(Exception, fun e =>
                       raise_ (new_exc IOError ("Error reading file: " ++ str_exc e)))] ;;
      ret content.

End file_reader.

(** ** error_handler.py *)
Module error_handler.

Definition run_with_error_handling {T} (func : M T) : M T :=
  try_except func
    [(ValueError, fun e =>
        stderr_write ("Error: " ++ str_exc e ++ nl) ;;
        sys_exit ErrorHandler 1);
     (FileNotFoundError, fun e =>
        stderr_write ("Error: " ++ str_exc e ++ nl) ;;
        sys_exit ErrorHandler 1);
     (IOError, fun e =>
        stderr_write ("Error: " ++ str_exc e ++ nl) ;;
        sys_exit ErrorHandler 1);
     (Exception, fun e =>
        stderr_write ("Unexpected error: " ++ str_exc e ++ nl) ;;
        sys_exit ErrorHandler 1)].

End error_handler.

(** ** extract-recall.py *)
Module extract_recall.

(** The inner function [run] of [main]. *)
Definition run : M unit :=
  '(file_path, output_format) <- arg_parser.get_args_from_command_line ;;
  content <- file_reader.read_file_content file_path ;;
  extracted <- extract content true (Some output_format) ;;
  print extracted.

Definition main : M unit :=
  error_handler.run_with_error_handling run.

End extract_recall.

(** ** trafilatura-recall-extractor.py *)
Module trafilatura_recall_extractor.

(** The script does everything in its own [main]: it checks the argument
    count and the path, reads the file and reports failures itself, each
    time followed by [sys.exit(1)], and calls [extract] without an output
    format.  [not path.exists() or not path.is_file()] evaluates
    [is_file] only when [exists] holds. *)
Definition main : M unit :=
  n <- len_sys_argv ;;
  (if Nat.ltb n 2 then
     stderr_write ("Missing argument: file path" ++ nl) ;;
     sys_exit StandaloneScript 1
   else ret tt) ;;
  file_path <- sys_argv_at 1 ;;
  let path := file_path in
  ex <- path_exists path ;;
  isf <- (if negb ex then ret false else path_is_file path) ;;
  (if negb ex || negb isf then
     stderr_write ("Invalid file path: " ++ file_path ++ nl) ;;
     sys_exit StandaloneScript 1
   else ret tt) ;;
  content <- try_except (path_read_text path)
               [(Exception, fun e =>
                   stderr_write ("Read error: " ++ str_exc e ++ nl) ;;
                   sys_exit StandaloneScript 1)] ;;
  extracted <- extract content true None ;;
  print extracted.

End trafilatura_recall_extractor.

(** ** Vocabulary of the statements *)

(** The world with another argument list. *)
Definition set_argv (w : World) (argv : list string) : World :=
  mkWorld argv (fs w) (trafilatura_extract w).

(** The process state after the handler has reported [e] under [prefix]
    and called [sys.exit(1)]. *)
Definition reported (prefix : string) (e : pyexc) (p : Proc) : Proc :=
  mkProc (stdout p) (stderr p ++ prefix ++ str_exc e ++ nl)
    (extract_calls p) (exit_sites p ++ [ErrorHandler]).

(** The [SystemExit(1)] the handler's [sys.exit(1)] raises while handling
    [e]. *)
Definition exit1 (e : pyexc) : pyexc := mkExc SystemExit (PyInt 1) (Some e).

(** The process state after the collaborator has been called with [c]. *)
Definition called (c : extract_call) (p : Proc) : Proc :=
  mkProc (stdout p) (stderr p) (extract_calls p ++ [c]) (exit_sites p).

(** The process state after [print(v)]. *)
Definition printed (v : pyval) (p : Proc) : Proc :=
  mkProc (stdout p ++ str v ++ nl) (stderr p) (extract_calls p) (exit_sites p).

(** [exits_in S m]: whatever the world and the state, every [sys.exit]
    that [m] executes is written in a component of [S]. *)
Definition exits_in {A} (S : component -> Prop) (m : M A) : Prop :=
  forall w p, exists l,
    exit_sites (snd (m w p)) = (exit_sites p ++ l)%list /\ Forall S l.

(** No component at all: [m] never calls [sys.exit]. *)
Definition never_exits {A} (m : M A) : Prop := exits_in (fun _ => False) m.

(** * Properties *)

(** ** The embedding on small inputs *)

Example str_of_exit_code : str (PyInt 1) = "1".
Proof. reflexivity. Qed.

Example decode_error_is_value_error :
  issubclass UnicodeDecodeError ValueError = true.
Proof. reflexivity. Qed.

Example not_found_is_io_error : issubclass FileNotFoundError IOError = true.
Proof. reflexivity. Qed.

Example keyboard_interrupt_is_no_exception :
  issubclass KeyboardInterrupt Exception = false.
Proof. reflexivity. Qed.

Example library_error_is_exception :
  issubclass (UserClass "ParserError" (UserClass "LxmlError" Exception))
    Exception = true.
Proof. reflexivity. Qed.

Example joined_formats : String.concat ", " arg_parser.valid_formats = "html, txt".
Proof. reflexivity. Qed.

(** A run of extract-recall.py on an HTML page. *)
Example extract_recall_html_run :
  run_script extract_recall.main
    (mkWorld ["extract-recall.py"; "page.html"; "html"]
       (fun _ => Regular (Ok "<p>Hi</p>"))
       (fun c => Ok (PyStr ("<doc>" ++ call_content c ++ "</doc>")))) =
  (0%Z, mkProc ("<doc><p>Hi</p></doc>" ++ nl) ""
          [mkCall "<p>Hi</p>" true (Some "html")] []).
Proof. reflexivity. Qed.

(** A [KeyboardInterrupt] during the extraction is not an [Exception]: it
    passes through the handler, which writes nothing. *)
Example extract_recall_interrupted :
  run_script extract_recall.main
    (mkWorld ["extract-recall.py"; "page.html"; "html"]
       (fun _ => Regular (Ok "<p>Hi</p>"))
       (fun _ => Raised (mkExc KeyboardInterrupt PyNone None))) =
  (1%Z, mkProc "" "" [mkCall "<p>Hi</p>" true (Some "html")] []).
Proof. reflexivity. Qed.

(** The standalone script on a file that is not valid UTF-8. *)
Example standalone_read_error :
  run_script trafilatura_recall_extractor.main
    (mkWorld ["trafilatura-recall-extractor.py"; "latin1.html"]
       (fun _ => Regular (Raised (new_exc UnicodeDecodeError "invalid start byte")))
       (fun _ => Ok PyNone)) =
  (1%Z, mkProc "" ("Read error: invalid start byte" ++ nl) [] [StandaloneScript]).
Proof. reflexivity. Qed.

(** ** The class hierarchy *)

Lemma pyclass_eqb_eq (c d : pyclass) : pyclass_eqb c d = true <-> c = d.
Proof.
  revert d; induction c; destruct d; simpl;
    try (split; [discriminate | discriminate]);
    try (split; reflexivity).
  rewrite andb_true_iff, String.eqb_eq, IHc.
  split; [intros [-> ->]; reflexivity | intros H; injection H; auto].
Qed.

Lemma pyclass_eqb_refl (c : pyclass) : pyclass_eqb c c = true.
Proof. apply pyclass_eqb_eq; reflexivity. Qed.

Lemma issubclass_refl (c : pyclass) : issubclass c c = true.
Proof.
  unfold issubclass; destruct c; simpl; try reflexivity.
  rewrite String.eqb_refl, pyclass_eqb_refl; reflexivity.
Qed.

(** A class defined by a library is a subclass of whatever its base is. *)
Lemma issubclass_user (n : string) (b d : pyclass) :
  issubclass (UserClass n b) d = pyclass_eqb d (UserClass n b) || issubclass b d.
Proof. reflexivity. Qed.

Ltac split_orb H :=
  repeat match type of H with
         | (_ || _) = true => apply orb_true_iff in H; destruct H as [H | H]
         end.

Lemma issubclass_trans (c d d' : pyclass) :
  issubclass c d = true -> issubclass d d' = true -> issubclass c d' = true.
Proof.
  revert d d'; induction c; intros d d' H1 H2;
    try (unfold issubclass in H1; simpl in H1; split_orb H1;
         try discriminate; apply pyclass_eqb_eq in H1; subst d;
         unfold issubclass in *; simpl in *; split_orb H2;
         try discriminate; rewrite H2; simpl;
         rewrite ?orb_true_r; reflexivity).
  rewrite issubclass_user in H1 |- *.
  apply orb_true_iff in H1; destruct H1 as [H1 | H1].
  - apply pyclass_eqb_eq in H1; subst d.
    rewrite issubclass_user in H2; exact H2.
  - rewrite (IHc _ _ H1 H2); apply orb_true_r.
Qed.

Lemma isinstance_trans (e : pyexc) (d d' : pyclass) :
  isinstance e d = true -> issubclass d d' = true -> isinstance e d' = true.
Proof. apply issubclass_trans. Qed.

(** [SystemExit] and [Exception] are disjoint branches of the hierarchy. *)
Lemma exception_not_system_exit (c : pyclass) :
  issubclass c Exception = true -> issubclass c SystemExit = false.
Proof.
  induction c; try reflexivity; try discriminate.
  rewrite !issubclass_user; simpl; exact IHc.
Qed.

(** ** Membership in a list of strings *)

Lemma str_in_spec (x : string) (l : list string) :
  arg_parser.str_in x l = true <-> In x l.
Proof.
  unfold arg_parser.str_in; rewrite existsb_exists; split.
  - intros [y [Hy E]]; apply String.eqb_eq in E; subst; exact Hy.
  - intros H; exists x; split; [exact H | apply String.eqb_refl].
Qed.

Lemma str_in_false (x : string) (l : list string) :
  ~ In x l -> arg_parser.str_in x l = false.
Proof.
  intros H; destruct (arg_parser.str_in x l) eqn:E; [|reflexivity].
  apply str_in_spec in E; contradiction.
Qed.

(** ** The Argument Parser *)

Section ArgParser.

Variable w : World.
Variable p : Proc.

(** The parser on an argument list with two positional arguments at least. *)
Lemma get_args_two (prog file_path output_format : string) (rest : list string) :
  sys_argv w = prog :: file_path :: output_format :: rest ->
  arg_parser.get_args_from_command_line w p =
    if arg_parser.str_in output_format arg_parser.valid_formats
    then (Ok (file_path, output_format), p)
    else (Raised (new_exc ValueError
                    ("Invalid output format: " ++ output_format
                     ++ ". Valid formats: html, txt")), p).
Proof.
  intros Hargv.
  unfold arg_parser.get_args_from_command_line, bind, len_sys_argv, sys_argv_at.
  rewrite Hargv; cbn -[arg_parser.str_in String.append].
  rewrite Hargv; cbn -[arg_parser.str_in String.append].
  destruct (arg_parser.str_in output_format arg_parser.valid_formats); reflexivity.
Qed.

(** The parser on an argument list with fewer than two positional
    arguments. *)
Lemma get_args_short :
  length (sys_argv w) < 3 ->
  arg_parser.get_args_from_command_line w p =
    (Raised (new_exc ValueError "Usage: <script> <file_path> <output_format>"), p).
Proof.
  intros Hlen.
  unfold arg_parser.get_args_from_command_line, bind, len_sys_argv.
  apply Nat.ltb_lt in Hlen; rewrite Hlen; reflexivity.
Qed.

End ArgParser.

(** C5: when the output format given on the command line is neither
    ["html"] nor ["txt"], the Argument Parser raises [ValueError] (the
    invalid-usage error), leaves the process state alone, and the message
    ends with the list of valid choices, exactly [html, txt]. *)
Theorem get_args_invalid_format :
  forall (w : World) (p : Proc) (prog file_path output_format : string)
         (rest : list string),
    sys_argv w = prog :: file_path :: output_format :: rest ->
    ~ In output_format ["html"; "txt"] ->
    arg_parser.get_args_from_command_line w p =
      (Raised (new_exc ValueError
                 ("Invalid output format: " ++ output_format
                  ++ ". Valid formats: " ++ "html, txt")), p).
Proof.
  intros w p prog file_path output_format rest Hargv Hnot.
  rewrite (get_args_two w p _ _ _ _ Hargv).
  unfold arg_parser.valid_formats.
  rewrite (str_in_false _ _ Hnot); reflexivity.
Qed.

Lemma get_args_invalid_format_witness :
  arg_parser.get_args_from_command_line
    (mkWorld ["extract-recall.py"; "page.html"; "xml"]
       (fun _ => Absent) (fun _ => Ok PyNone)) proc0 =
    (Raised (new_exc ValueError
               "Invalid output format: xml. Valid formats: html, txt"), proc0).
Proof.
  apply (get_args_invalid_format
           (mkWorld ["extract-recall.py"; "page.html"; "xml"]
              (fun _ => Absent) (fun _ => Ok PyNone))
           proc0 "extract-recall.py" "page.html" "xml" []).
  - reflexivity.
  - simpl; intros [H | [H | H]]; [discriminate H | discriminate H | exact H].
Defined.

(** C6: an argument list with fewer than two positional arguments (the
    elements of [sys.argv] after the script name) makes the Argument Parser
    raise the invalid-usage [ValueError]; with two positional arguments at
    least and a valid format it returns the pair (file_path,
    output_format). *)
Theorem get_args_arity :
  forall (w : World) (p : Proc),
    (length (tl (sys_argv w)) < 2 ->
     arg_parser.get_args_from_command_line w p =
       (Raised (new_exc ValueError "Usage: <script> <file_path> <output_format>"),
        p))
    /\
    (forall file_path output_format rest,
        tl (sys_argv w) = file_path :: output_format :: rest ->
        In output_format ["html"; "txt"] ->
        arg_parser.get_args_from_command_line w p =
          (Ok (file_path, output_format), p)).
Proof.
  intros w p; split.
  - intros Hlen; apply get_args_short.
    destruct (sys_argv w) as [|prog args]; simpl in *; lia.
  - intros file_path output_format rest Htl Hin.
    destruct (sys_argv w) as [|prog args] eqn:Hargv; simpl in Htl;
      [discriminate Htl | subst args].
    rewrite (get_args_two w p _ _ _ _ Hargv).
    apply str_in_spec in Hin; unfold arg_parser.valid_formats; rewrite Hin.
    reflexivity.
Qed.

Lemma get_args_arity_witness :
  arg_parser.get_args_from_command_line
    (mkWorld ["extract-recall.py"; "page.html"]
       (fun _ => Absent) (fun _ => Ok PyNone)) proc0 =
    (Raised (new_exc ValueError "Usage: <script> <file_path> <output_format>"),
     proc0)
  /\
  arg_parser.get_args_from_command_line
    (mkWorld ["extract-recall.py"; "page.html"; "html"]
       (fun _ => Absent) (fun _ => Ok PyNone)) proc0 =
    (Ok ("page.html", "html"), proc0).
Proof.
  split.
  - apply (proj1 (get_args_arity
                    (mkWorld ["extract-recall.py"; "page.html"]
                       (fun _ => Absent) (fun _ => Ok PyNone)) proc0)).
    simpl; lia.
  - apply (proj2 (get_args_arity
                    (mkWorld ["extract-recall.py"; "page.html"; "html"]
                       (fun _ => Absent) (fun _ => Ok PyNone)) proc0)
             "page.html" "html" []).
    + reflexivity.
    + simpl; left; reflexivity.
Defined.

(** C10: the arguments after the second positional one are ignored by the
    Argument Parser: with or without them it does the same thing (same
    result, same error, same process state), and it returns exactly (first
    argument, second argument) whenever the second is a valid format. *)
Theorem get_args_ignores_extra :
  forall (w : World) (p : Proc) (prog first second : string)
         (extra : list string),
    arg_parser.get_args_from_command_line
      (set_argv w (prog :: first :: second :: extra)) p =
    arg_parser.get_args_from_command_line
      (set_argv w [prog; first; second]) p
    /\
    (In second ["html"; "txt"] ->
     arg_parser.get_args_from_command_line
       (set_argv w (prog :: first :: second :: extra)) p =
     (Ok (first, second), p)).
Proof.
  intros w p prog first second extra.
  rewrite (get_args_two (set_argv w (prog :: first :: second :: extra)) p
             prog first second extra eq_refl).
  rewrite (get_args_two (set_argv w [prog; first; second]) p
             prog first second [] eq_refl).
  split; [reflexivity|].
  intros Hin; apply str_in_spec in Hin.
  unfold arg_parser.valid_formats; rewrite Hin; reflexivity.
Qed.

Lemma get_args_ignores_extra_witness :
  arg_parser.get_args_from_command_line
    (mkWorld ["extract-recall.py"; "page.html"; "txt"; "--verbose"; "x"]
       (fun _ => Absent) (fun _ => Ok PyNone)) proc0 =
  (Ok ("page.html", "txt"), proc0).
Proof.
  apply (proj2 (get_args_ignores_extra
                  (mkWorld [] (fun _ => Absent) (fun _ => Ok PyNone)) proc0
                  "extract-recall.py" "page.html" "txt" ["--verbose"; "x"])).
  simpl; right; left; reflexivity.
Defined.

(** ** Sequencing *)

Lemma bind_ok {A B} {m : M A} (k : A -> M B) {w : World} {p p' : Proc} {a : A} :
  m w p = (Ok a, p') -> bind m k w p = k a w p'.
Proof. intros H; unfold bind; rewrite H; reflexivity. Qed.

Lemma bind_raised {A B} {m : M A} (k : A -> M B) {w : World} {p p' : Proc}
  {e : pyexc} :
  m w p = (Raised e, p') -> bind m k w p = (Raised e, p').
Proof. intros H; unfold bind; rewrite H; reflexivity. Qed.

Lemma try_except_ok {A} (body : M A) clauses (w : World) (p p' : Proc) (a : A) :
  body w p = (Ok a, p') -> try_except body clauses w p = (Ok a, p').
Proof. intros H; unfold try_except; rewrite H; reflexivity. Qed.

Lemma try_except_uncaught {A} (body : M A) clauses (w : World) (p p' : Proc)
  (e : pyexc) :
  body w p = (Raised e, p') -> find_clause e clauses = None ->
  try_except body clauses w p = (Raised e, p').
Proof. intros H F; unfold try_except; rewrite H, F; reflexivity. Qed.

(** Runs the embedded program as far as the known facts [H] allow. *)
Ltac exec_with H :=
  repeat (progress (cbn -[String.append arg_parser.str_in isinstance];
                    rewrite ?H)).

(** ** The File Reader *)

Section FileReader.

Variable w : World.
Variable p : Proc.
Variable path : string.

Lemma read_file_content_absent :
  fs w path = Absent ->
  file_reader.read_file_content path w p =
    (Raised (new_exc FileNotFoundError ("File not found: " ++ path)), p).
Proof.
  intros H; unfold file_reader.read_file_content, bind, path_exists.
  rewrite H; reflexivity.
Qed.

Lemma read_file_content_not_file :
  fs w path <> Absent -> (forall r, fs w path <> Regular r) ->
  file_reader.read_file_content path w p =
    (Raised (new_exc ValueError ("Path is not a file: " ++ path)), p).
Proof.
  intros Hex Hreg.
  unfold file_reader.read_file_content, bind, path_exists, path_is_file.
  destruct (fs w path) as [| | |r] eqn:E.
  - exfalso; apply Hex; reflexivity.
  - exec_with E; reflexivity.
  - exec_with E; reflexivity.
  - exfalso; apply (Hreg _ eq_refl).
Qed.

Lemma read_file_content_ok (content : string) :
  fs w path = Regular (Ok content) ->
  file_reader.read_file_content path w p = (Ok content, p).
Proof.
  intros H.
  unfold file_reader.read_file_content, bind, path_exists, path_is_file,
    try_except, path_read_text.
  exec_with H; reflexivity.
Qed.

Lemma read_file_content_wrapped (e : pyexc) :
  fs w path = Regular (Raised e) ->
  isinstance e Exception = true ->
  file_reader.read_file_content path w p =
    (Raised (mkExc IOError (PyStr ("Error reading file: " ++ str_exc e)) (Some e)),
     p).
Proof.
  intros H He.
  unfold file_reader.read_file_content, bind, path_exists, path_is_file,
    try_except, path_read_text, find_clause.
  exec_with H; rewrite He; reflexivity.
Qed.

Lemma read_file_content_escapes (e : pyexc) :
  fs w path = Regular (Raised e) ->
  isinstance e Exception = false ->
  file_reader.read_file_content path w p = (Raised e, p).
Proof.
  intros H He.
  unfold file_reader.read_file_content, bind, path_exists, path_is_file,
    try_except, path_read_text, find_clause.
  exec_with H; rewrite He; reflexivity.
Qed.

End FileReader.

(** C7: when the path names an existing regular file and the read raises
    an error (a decoding error, a permission error, any [Exception]), the
    File Reader raises an [IOError] whose message is ["Error reading
    file: "] followed by the text of the underlying error, which it keeps
    as its context; the class raised does not depend on the class of the
    underlying error. *)
Theorem read_file_content_uniform_io_error :
  forall (w : World) (p : Proc) (path : string) (cause : pyexc),
    fs w path = Regular (Raised cause) ->
    isinstance cause Exception = true ->
    exists e,
      file_reader.read_file_content path w p = (Raised e, p)
      /\ exc_class e = IOError
      /\ exc_arg e = PyStr ("Error reading file: " ++ str_exc cause)
      /\ exc_context e = Some cause.
Proof.
  intros w p path cause Hfs Hexc.
  eexists; split; [apply (read_file_content_wrapped w p path cause Hfs Hexc)|].
  repeat split.
Qed.

Lemma read_file_content_uniform_io_error_witness :
  exists e,
    file_reader.read_file_content "latin1.html"
      (mkWorld []
         (fun _ => Regular (Raised (new_exc UnicodeDecodeError
            "'utf-8' codec can't decode byte 0xe9 in position 3: invalid continuation byte")))
         (fun _ => Ok PyNone)) proc0 = (Raised e, proc0)
    /\ exc_class e = IOError
    /\ exc_arg e =
         PyStr ("Error reading file: " ++
           str_exc (new_exc UnicodeDecodeError
             "'utf-8' codec can't decode byte 0xe9 in position 3: invalid continuation byte"))
    /\ exc_context e =
         Some (new_exc UnicodeDecodeError
           "'utf-8' codec can't decode byte 0xe9 in position 3: invalid continuation byte").
Proof.
  apply (read_file_content_uniform_io_error
           (mkWorld []
              (fun _ => Regular (Raised (new_exc UnicodeDecodeError
                 "'utf-8' codec can't decode byte 0xe9 in position 3: invalid continuation byte")))
              (fun _ => Ok PyNone))
           proc0 "latin1.html").
  - reflexivity.
  - reflexivity.
Defined.

(** ** The Error Handler *)

Section ErrorHandler.

Variable T : Type.
Variable func : M T.
Variable w : World.
Variables p p' : Proc.

Lemma run_with_error_handling_ok (a : T) :
  func w p = (Ok a, p') ->
  error_handler.run_with_error_handling func w p = (Ok a, p').
Proof. apply try_except_ok. Qed.

(** [ValueError], [FileNotFoundError] and [IOError]: the first three
    clauses. *)
Lemma run_with_error_handling_known (e : pyexc) :
  func w p = (Raised e, p') ->
  isinstance e ValueError = true \/ isinstance e OSError = true ->
  error_handler.run_with_error_handling func w p =
    (Raised (exit1 e), reported "Error: " e p').
Proof.
  intros H Hk.
  unfold error_handler.run_with_error_handling, try_except, find_clause, IOError.
  rewrite H; cbv beta iota.
  destruct (isinstance e ValueError) eqn:HV; [reflexivity|].
  destruct (isinstance e FileNotFoundError) eqn:HF; [reflexivity|].
  destruct Hk as [Hk | Hk]; [discriminate Hk|].
  rewrite Hk; reflexivity.
Qed.

(** Any other [Exception]: the last clause. *)
Lemma run_with_error_handling_unexpected (e : pyexc) :
  func w p = (Raised e, p') ->
  isinstance e Exception = true ->
  isinstance e ValueError = false -> isinstance e OSError = false ->
  error_handler.run_with_error_handling func w p =
    (Raised (exit1 e), reported "Unexpected error: " e p').
Proof.
  intros H HE HV HO.
  unfold error_handler.run_with_error_handling, try_except, find_clause, IOError.
  rewrite H; cbv beta iota.
  rewrite HV, HO, HE.
  destruct (isinstance e FileNotFoundError) eqn:HF; [|reflexivity].
  rewrite (isinstance_trans e FileNotFoundError OSError HF eq_refl) in HO.
  discriminate HO.
Qed.

(** What is not an [Exception] ([KeyboardInterrupt], [SystemExit]) passes
    through the handler. *)
Lemma run_with_error_handling_escapes (e : pyexc) :
  func w p = (Raised e, p') ->
  isinstance e Exception = false ->
  error_handler.run_with_error_handling func w p = (Raised e, p').
Proof.
  intros H HE.
  apply try_except_uncaught; [exact H|].
  unfold find_clause, IOError.
  destruct (isinstance e ValueError) eqn:HV;
    [rewrite (isinstance_trans e ValueError Exception HV eq_refl) in HE;
     discriminate HE|].
  destruct (isinstance e FileNotFoundError) eqn:HF;
    [rewrite (isinstance_trans e FileNotFoundError Exception HF eq_refl) in HE;
     discriminate HE|].
  destruct (isinstance e OSError) eqn:HO;
    [rewrite (isinstance_trans e OSError Exception HO eq_refl) in HE;
     discriminate HE|].
  rewrite HE; reflexivity.
Qed.

End ErrorHandler.

(** ** The pipeline of extract-recall.py *)

Section Pipeline.

Variable w : World.
Variables prog path fmt : string.
Variable rest : list string.
Hypothesis Hargv : sys_argv w = prog :: path :: fmt :: rest.
Hypothesis Hfmt : In fmt ["html"; "txt"].

Lemma get_args_valid (p : Proc) :
  arg_parser.get_args_from_command_line w p = (Ok (path, fmt), p).
Proof.
  rewrite (get_args_two w p _ _ _ _ Hargv).
  apply str_in_spec in Hfmt; unfold arg_parser.valid_formats; rewrite Hfmt.
  reflexivity.
Qed.

(** [run], once the arguments are parsed: read, extract, print. *)
Lemma run_steps (p : Proc) :
  extract_recall.run w p =
    match file_reader.read_file_content path w p with
    | (Ok content, p1) =>
        let c := mkCall content true (Some fmt) in
        match trafilatura_extract w c with
        | Ok v => (Ok tt, printed v (called c p1))
        | Raised e => (Raised e, called c p1)
        end
    | (Raised e, p1) => (Raised e, p1)
    end.
Proof.
  unfold extract_recall.run.
  rewrite (bind_ok _ (get_args_valid p)).
  unfold bind at 1.
  destruct (file_reader.read_file_content path w p) as [[content | e] p1];
    [|reflexivity].
  unfold bind, extract, print, stdout_write; cbv beta zeta.
  destruct (trafilatura_extract w (mkCall content true (Some fmt))); reflexivity.
Qed.

Lemma run_read_failed (p : Proc) (e : pyexc) :
  file_reader.read_file_content path w p = (Raised e, p) ->
  extract_recall.run w p = (Raised e, p).
Proof. intros H; rewrite run_steps, H; reflexivity. Qed.

Lemma run_extracted (p : Proc) (content : string) (v : pyval) :
  fs w path = Regular (Ok content) ->
  trafilatura_extract w (mkCall content true (Some fmt)) = Ok v ->
  extract_recall.run w p =
    (Ok tt, printed v (called (mkCall content true (Some fmt)) p)).
Proof.
  intros Hfs Hext.
  rewrite run_steps, (read_file_content_ok w p path content Hfs); cbv zeta.
  rewrite Hext; reflexivity.
Qed.

Lemma run_extract_failed (p : Proc) (content : string) (e : pyexc) :
  fs w path = Regular (Ok content) ->
  trafilatura_extract w (mkCall content true (Some fmt)) = Raised e ->
  extract_recall.run w p =
    (Raised e, called (mkCall content true (Some fmt)) p).
Proof.
  intros Hfs Hext.
  rewrite run_steps, (read_file_content_ok w p path content Hfs); cbv zeta.
  rewrite Hext; reflexivity.
Qed.

End Pipeline.

(** The exit status and final state of a script whose run is known. *)
Lemma run_script_eq {A} (script : M A) (w : World) (r : outcome A) (p : Proc) :
  script w proc0 = (r, p) -> run_script script w = (exit_status r, p).
Proof. intros H; unfold run_script; rewrite H; reflexivity. Qed.

(** C1: invoked on a readable, UTF-8-decodable regular file with output
    format ["txt"], when the collaborator returns the text [text], the
    program exits with status 0; standard output is [text] followed by the
    newline of [print], written once; nothing is written to the error
    stream; the collaborator was called exactly once, on the file's
    content, with [favor_recall=True] and [output_format="txt"]. *)
Theorem extract_recall_txt_success :
  forall (w : World) (prog path : string) (rest : list string)
         (content text : string),
    sys_argv w = prog :: path :: "txt" :: rest ->
    fs w path = Regular (Ok content) ->
    trafilatura_extract w (mkCall content true (Some "txt")) = Ok (PyStr text) ->
    run_script extract_recall.main w =
      (0%Z, mkProc (text ++ nl) "" [mkCall content true (Some "txt")] []).
Proof.
  intros w prog path rest content text Hargv Hfs Hext.
  apply (run_script_eq extract_recall.main w (Ok tt)).
  apply run_with_error_handling_ok.
  rewrite (run_extracted w prog path "txt" rest Hargv (or_intror (or_introl eq_refl))
             proc0 content (PyStr text) Hfs Hext).
  reflexivity.
Qed.

Lemma extract_recall_txt_success_witness :
  run_script extract_recall.main
    (mkWorld ["extract-recall.py"; "page.html"; "txt"]
       (fun _ => Regular (Ok "<html><body><p>Hello</p></body></html>"))
       (fun _ => Ok (PyStr "Hello"))) =
    (0%Z, mkProc ("Hello" ++ nl) ""
            [mkCall "<html><body><p>Hello</p></body></html>" true (Some "txt")] []).
Proof.
  apply (extract_recall_txt_success
           (mkWorld ["extract-recall.py"; "page.html"; "txt"]
              (fun _ => Regular (Ok "<html><body><p>Hello</p></body></html>"))
              (fun _ => Ok (PyStr "Hello")))
           "extract-recall.py" "page.html" []
           "<html><body><p>Hello</p></body></html>" "Hello").
  - reflexivity.
  - reflexivity.
  - reflexivity.
Defined.

(** C4: for every path given to the File Reader, if nothing exists at
    the path it raises [FileNotFoundError("File not found: <path>")] and
    the process of extract-recall.py exits with status 1 having written
    the line [Error: File not found: <path>] to the error stream; if
    something exists there that is not a regular file it raises
    [ValueError("Path is not a file: <path>")] and the process exits with
    status 1 having written [Error: Path is not a file: <path>]. *)
Theorem read_file_content_missing_or_not_file :
  forall (w : World) (path : string),
    (fs w path = Absent ->
     (forall p,
         file_reader.read_file_content path w p =
           (Raised (new_exc FileNotFoundError ("File not found: " ++ path)), p))
     /\
     (forall prog fmt rest,
         sys_argv w = prog :: path :: fmt :: rest ->
         In fmt ["html"; "txt"] ->
         run_script extract_recall.main w =
           (1%Z, mkProc "" ("Error: File not found: " ++ path ++ nl) []
                   [ErrorHandler])))
    /\
    (fs w path <> Absent -> (forall r, fs w path <> Regular r) ->
     (forall p,
         file_reader.read_file_content path w p =
           (Raised (new_exc ValueError ("Path is not a file: " ++ path)), p))
     /\
     (forall prog fmt rest,
         sys_argv w = prog :: path :: fmt :: rest ->
         In fmt ["html"; "txt"] ->
         run_script extract_recall.main w =
           (1%Z, mkProc "" ("Error: Path is not a file: " ++ path ++ nl) []
                   [ErrorHandler]))).
Proof.
  intros w path; split.
  - intros Habs; split.
    + intros p; apply read_file_content_absent; exact Habs.
    + intros prog fmt rest Hargv Hfmt.
      pose proof (run_read_failed w prog path fmt rest Hargv Hfmt proc0 _
                    (read_file_content_absent w proc0 path Habs)) as Hrun.
      apply (run_script_eq extract_recall.main w
               (Raised (exit1 (new_exc FileNotFoundError
                                 ("File not found: " ++ path))))).
      apply (run_with_error_handling_known _ _ _ _ _ _ Hrun).
      right; reflexivity.
  - intros Hex Hreg; split.
    + intros p; apply read_file_content_not_file; assumption.
    + intros prog fmt rest Hargv Hfmt.
      pose proof (run_read_failed w prog path fmt rest Hargv Hfmt proc0 _
                    (read_file_content_not_file w proc0 path Hex Hreg)) as Hrun.
      apply (run_script_eq extract_recall.main w
               (Raised (exit1 (new_exc ValueError
                                 ("Path is not a file: " ++ path))))).
      apply (run_with_error_handling_known _ _ _ _ _ _ Hrun).
      left; reflexivity.
Qed.

Lemma read_file_content_missing_or_not_file_witness :
  run_script extract_recall.main
    (mkWorld ["extract-recall.py"; "gone.html"; "txt"]
       (fun _ => Absent) (fun _ => Ok PyNone)) =
    (1%Z, mkProc "" ("Error: File not found: gone.html" ++ nl) [] [ErrorHandler])
  /\
  run_script extract_recall.main
    (mkWorld ["extract-recall.py"; "/tmp"; "html"]
       (fun _ => Directory) (fun _ => Ok PyNone)) =
    (1%Z, mkProc "" ("Error: Path is not a file: /tmp" ++ nl) [] [ErrorHandler]).
Proof.
  split.
  - apply (proj2 (proj1 (read_file_content_missing_or_not_file
                           (mkWorld ["extract-recall.py"; "gone.html"; "txt"]
                              (fun _ => Absent) (fun _ => Ok PyNone))
                           "gone.html") eq_refl)
             "extract-recall.py" "txt" []).
    + reflexivity.
    + simpl; right; left; reflexivity.
  - assert (Hex : Directory <> Absent) by discriminate.
    assert (Hreg : forall r, Directory <> Regular r) by (intros r; discriminate).
    apply (proj2 (proj2 (read_file_content_missing_or_not_file
                           (mkWorld ["extract-recall.py"; "/tmp"; "html"]
                              (fun _ => Directory) (fun _ => Ok PyNone))
                           "/tmp") Hex Hreg)
             "extract-recall.py" "html" []).
    + reflexivity.
    + simpl; left; reflexivity.
Defined.

(** ** The standalone script trafilatura-recall-extractor.py *)

Section Standalone.

Variable w : World.
Variables prog path : string.
Variable rest : list string.
Hypothesis Hargv : sys_argv w = prog :: path :: rest.

Lemma standalone_extracted (p : Proc) (content : string) (v : pyval) :
  fs w path = Regular (Ok content) ->
  trafilatura_extract w (mkCall content true None) = Ok v ->
  trafilatura_recall_extractor.main w p =
    (Ok tt, printed v (called (mkCall content true None) p)).
Proof.
  intros Hfs Hext.
  unfold trafilatura_recall_extractor.main, bind, len_sys_argv, sys_argv_at,
    path_exists, path_is_file, try_except, path_read_text, extract, print,
    stdout_write, ret.
  exec_with Hargv. exec_with Hfs. exec_with Hext.
  reflexivity.
Qed.

Lemma standalone_invalid_path (p : Proc) :
  (forall r, fs w path <> Regular r) ->
  trafilatura_recall_extractor.main w p =
    (Raised (mkExc SystemExit (PyInt 1) None),
     mkProc (stdout p) (stderr p ++ "Invalid file path: " ++ path ++ nl)
       (extract_calls p) (exit_sites p ++ [StandaloneScript])).
Proof.
  intros Hreg.
  unfold trafilatura_recall_extractor.main, bind, len_sys_argv, sys_argv_at,
    path_exists, path_is_file, stderr_write, sys_exit, ret.
  exec_with Hargv.
  destruct (fs w path) as [| | |r] eqn:E; exec_with E;
    try reflexivity.
  exfalso; apply (Hreg _ eq_refl).
Qed.

End Standalone.

(** Without a positional argument the standalone script reports it and
    exits by itself. *)
Lemma standalone_missing_argument (w : World) (p : Proc) :
  length (sys_argv w) < 2 ->
  trafilatura_recall_extractor.main w p =
    (Raised (mkExc SystemExit (PyInt 1) None),
     mkProc (stdout p) (stderr p ++ "Missing argument: file path" ++ nl)
       (extract_calls p) (exit_sites p ++ [StandaloneScript])).
Proof.
  intros Hlen; apply Nat.ltb_lt in Hlen.
  unfold trafilatura_recall_extractor.main, bind, len_sys_argv, stderr_write,
    sys_exit.
  cbv beta iota; rewrite Hlen; reflexivity.
Qed.

(** C9: when the arguments are valid, the file is read and the
    collaborator returns [None] instead of a string, the program succeeds
    (exit status 0) and standard output is the line [None]: this holds for
    extract-recall.py and for trafilatura-recall-extractor.py. *)
Theorem none_result_printed_as_None :
  forall (w : World) (prog path content : string),
    fs w path = Regular (Ok content) ->
    (forall fmt rest,
        sys_argv w = prog :: path :: fmt :: rest ->
        In fmt ["html"; "txt"] ->
        trafilatura_extract w (mkCall content true (Some fmt)) = Ok PyNone ->
        run_script extract_recall.main w =
          (0%Z, mkProc ("None" ++ nl) "" [mkCall content true (Some fmt)] []))
    /\
    (forall rest,
        sys_argv w = prog :: path :: rest ->
        trafilatura_extract w (mkCall content true None) = Ok PyNone ->
        run_script trafilatura_recall_extractor.main w =
          (0%Z, mkProc ("None" ++ nl) "" [mkCall content true None] [])).
Proof.
  intros w prog path content Hfs; split.
  - intros fmt rest Hargv Hfmt Hext.
    apply (run_script_eq extract_recall.main w (Ok tt)).
    apply run_with_error_handling_ok.
    rewrite (run_extracted w prog path fmt rest Hargv Hfmt proc0 content PyNone
               Hfs Hext).
    reflexivity.
  - intros rest Hargv Hext.
    apply (run_script_eq trafilatura_recall_extractor.main w (Ok tt)).
    rewrite (standalone_extracted w prog path rest Hargv proc0 content PyNone
               Hfs Hext).
    reflexivity.
Qed.

Lemma none_result_printed_as_None_witness :
  run_script extract_recall.main
    (mkWorld ["extract-recall.py"; "empty.html"; "html"]
       (fun _ => Regular (Ok "")) (fun _ => Ok PyNone)) =
    (0%Z, mkProc ("None" ++ nl) "" [mkCall "" true (Some "html")] [])
  /\
  run_script trafilatura_recall_extractor.main
    (mkWorld ["trafilatura-recall-extractor.py"; "empty.html"]
       (fun _ => Regular (Ok "")) (fun _ => Ok PyNone)) =
    (0%Z, mkProc ("None" ++ nl) "" [mkCall "" true None] []).
Proof.
  split.
  - apply (proj1 (none_result_printed_as_None
                    (mkWorld ["extract-recall.py"; "empty.html"; "html"]
                       (fun _ => Regular (Ok "")) (fun _ => Ok PyNone))
                    "extract-recall.py" "empty.html" "" eq_refl)
             "html" []).
    + reflexivity.
    + simpl; left; reflexivity.
    + reflexivity.
  - apply (proj2 (none_result_printed_as_None
                    (mkWorld ["trafilatura-recall-extractor.py"; "empty.html"]
                       (fun _ => Regular (Ok "")) (fun _ => Ok PyNone))
                    "trafilatura-recall-extractor.py" "empty.html" "" eq_refl)
             []).
    + reflexivity.
    + reflexivity.
Defined.

(** ** Errors of the collaborator *)

(** C2, as the specification states it, fails: a [ValueError] raised by
    the collaborator is not reported as an unexpected error. *)
Lemma collaborator_value_error_not_unexpected :
  ~ (forall (w : World) (prog path fmt : string) (rest : list string)
            (content : string) (e : pyexc),
        sys_argv w = prog :: path :: fmt :: rest ->
        In fmt ["html"; "txt"] ->
        fs w path = Regular (Ok content) ->
        trafilatura_extract w (mkCall content true (Some fmt)) = Raised e ->
        run_script extract_recall.main w =
          (1%Z, mkProc "" ("Unexpected error: " ++ str_exc e ++ nl)
                  [mkCall content true (Some fmt)] [ErrorHandler])).
Proof.
  intros H.
  specialize (H (mkWorld ["extract-recall.py"; "page.html"; "txt"]
                   (fun _ => Regular (Ok "<html>"))
                   (fun _ => Raised (new_exc ValueError "bad markup")))
                "extract-recall.py" "page.html" "txt" [] "<html>"
                (new_exc ValueError "bad markup")
                eq_refl (or_intror (or_introl eq_refl)) eq_refl eq_refl).
  vm_compute in H; discriminate H.
Qed.

(** C2, amended: an [Exception] raised by the collaborator during the
    extraction call leaves [run] unmodified and reaches the Error Handler,
    and the process exits with status 1 after one line on the error
    stream: [Unexpected error: <message>] when the exception is neither a
    [ValueError] nor an [OSError], [Error: <message>] when it is one of
    them. *)
Theorem collaborator_error_reported :
  forall (w : World) (prog path fmt : string) (rest : list string)
         (content : string) (e : pyexc),
    sys_argv w = prog :: path :: fmt :: rest ->
    In fmt ["html"; "txt"] ->
    fs w path = Regular (Ok content) ->
    trafilatura_extract w (mkCall content true (Some fmt)) = Raised e ->
    isinstance e Exception = true ->
    extract_recall.run w proc0 =
      (Raised e, mkProc "" "" [mkCall content true (Some fmt)] [])
    /\
    (isinstance e ValueError = false -> isinstance e OSError = false ->
     run_script extract_recall.main w =
       (1%Z, mkProc "" ("Unexpected error: " ++ str_exc e ++ nl)
               [mkCall content true (Some fmt)] [ErrorHandler]))
    /\
    (isinstance e ValueError = true \/ isinstance e OSError = true ->
     run_script extract_recall.main w =
       (1%Z, mkProc "" ("Error: " ++ str_exc e ++ nl)
               [mkCall content true (Some fmt)] [ErrorHandler])).
Proof.
  intros w prog path fmt rest content e Hargv Hfmt Hfs Hext HE.
  pose proof (run_extract_failed w prog path fmt rest Hargv Hfmt proc0 content e
                Hfs Hext) as Hrun.
  split; [exact Hrun | split].
  - intros HV HO.
    apply (run_script_eq extract_recall.main w (Raised (exit1 e))).
    apply (run_with_error_handling_unexpected _ _ _ _ _ _ Hrun HE HV HO).
  - intros Hk.
    apply (run_script_eq extract_recall.main w (Raised (exit1 e))).
    apply (run_with_error_handling_known _ _ _ _ _ _ Hrun Hk).
Qed.

Lemma collaborator_error_reported_witness :
  run_script extract_recall.main
    (mkWorld ["extract-recall.py"; "page.html"; "txt"]
       (fun _ => Regular (Ok "<html>"))
       (fun _ => Raised (new_exc (UserClass "ParserError" Exception)
                           "Document is empty"))) =
    (1%Z, mkProc "" ("Unexpected error: Document is empty" ++ nl)
            [mkCall "<html>" true (Some "txt")] [ErrorHandler]).
Proof.
  apply (proj1 (proj2 (collaborator_error_reported
                  (mkWorld ["extract-recall.py"; "page.html"; "txt"]
                     (fun _ => Regular (Ok "<html>"))
                     (fun _ => Raised (new_exc (UserClass "ParserError" Exception)
                                         "Document is empty")))
                  "extract-recall.py" "page.html" "txt" [] "<html>"
                  (new_exc (UserClass "ParserError" Exception) "Document is empty")
                  eq_refl (or_intror (or_introl eq_refl)) eq_refl eq_refl eq_refl))).
  - reflexivity.
  - reflexivity.
Defined.

(** ** Where the process is terminated *)

Section ExitLogic.

Variable S : component -> Prop.

Lemma exits_in_silent {A} (m : M A) :
  (forall w p, exit_sites (snd (m w p)) = exit_sites p) -> exits_in S m.
Proof.
  intros H w p; exists []; rewrite app_nil_r; split; [apply H | constructor].
Qed.

Lemma exits_in_ret {A} (a : A) : exits_in S (ret a).
Proof. apply exits_in_silent; reflexivity. Qed.

Lemma exits_in_raise {A} (e : pyexc) : exits_in S (@raise_ A e).
Proof. apply exits_in_silent; reflexivity. Qed.

Lemma exits_in_len_sys_argv : exits_in S len_sys_argv.
Proof. apply exits_in_silent; reflexivity. Qed.

Lemma exits_in_sys_argv_at (i : nat) : exits_in S (sys_argv_at i).
Proof.
  apply exits_in_silent; intros w p; unfold sys_argv_at.
  destruct (nth_error (sys_argv w) i); reflexivity.
Qed.

Lemma exits_in_stdout_write (s : string) : exits_in S (stdout_write s).
Proof. apply exits_in_silent; reflexivity. Qed.

Lemma exits_in_stderr_write (s : string) : exits_in S (stderr_write s).
Proof. apply exits_in_silent; reflexivity. Qed.

Lemma exits_in_print (v : pyval) : exits_in S (print v).
Proof. apply exits_in_stdout_write. Qed.

Lemma exits_in_path_exists (path : string) : exits_in S (path_exists path).
Proof. apply exits_in_silent; reflexivity. Qed.

Lemma exits_in_path_is_file (path : string) : exits_in S (path_is_file path).
Proof. apply exits_in_silent; reflexivity. Qed.

Lemma exits_in_path_read_text (path : string) : exits_in S (path_read_text path).
Proof.
  apply exits_in_silent; intros w p; unfold path_read_text.
  destruct (fs w path); reflexivity.
Qed.

Lemma exits_in_extract (content : string) (fr : bool) (fmt : option string) :
  exits_in S (extract content fr fmt).
Proof. apply exits_in_silent; reflexivity. Qed.

Lemma exits_in_sys_exit {A} (site : component) (code : Z) :
  S site -> exits_in S (@sys_exit A site code).
Proof.
  intros Hs w p; exists [site]; split; [reflexivity|].
  constructor; [exact Hs | constructor].
Qed.

Lemma exits_in_bind {A B} (m : M A) (k : A -> M B) :
  exits_in S m -> (forall a, exits_in S (k a)) -> exits_in S (bind m k).
Proof.
  intros Hm Hk w p; unfold bind.
  destruct (Hm w p) as [l1 [E1 F1]].
  destruct (m w p) as [[a | e] p1]; simpl in E1.
  - destruct (Hk a w p1) as [l2 [E2 F2]].
    exists (l1 ++ l2)%list; rewrite E2, E1, app_assoc; split; [reflexivity|].
    apply Forall_app; split; assumption.
  - exists l1; split; assumption.
Qed.

Lemma exits_in_if {A} (c : bool) (m1 m2 : M A) :
  exits_in S m1 -> exits_in S m2 -> exits_in S (if c then m1 else m2).
Proof. destruct c; intros; assumption. Qed.

Lemma find_clause_In {A} (e : pyexc) (clauses : list (pyclass * (pyexc -> M A)))
  (h : pyexc -> M A) :
  find_clause e clauses = Some h -> exists cls, In (cls, h) clauses.
Proof.
  induction clauses as [|[cls h'] rest IH]; simpl; [discriminate|].
  destruct (isinstance e cls).
  - intros H; injection H as ->; exists cls; left; reflexivity.
  - intros H; destruct (IH H) as [c Hc]; exists c; right; exact Hc.
Qed.

Lemma exits_in_try_except {A} (body : M A)
  (clauses : list (pyclass * (pyexc -> M A))) :
  exits_in S body ->
  Forall (fun cl => forall e, exits_in S (snd cl e)) clauses ->
  exits_in S (try_except body clauses).
Proof.
  intros Hb Hc w p; unfold try_except.
  destruct (Hb w p) as [l1 [E1 F1]].
  destruct (body w p) as [[a | e] p1]; simpl in E1.
  - exists l1; split; assumption.
  - destruct (find_clause e clauses) as [h|] eqn:Hf.
    + destruct (find_clause_In e clauses h Hf) as [cls Hin].
      rewrite Forall_forall in Hc.
      destruct (Hc _ Hin e w p1) as [l2 [E2 F2]]; simpl in E2.
      exists (l1 ++ l2)%list; split; [|apply Forall_app; split; assumption].
      destruct (h e w p1) as [[a | e'] p2]; simpl in *;
        rewrite E2, E1, app_assoc; reflexivity.
    + exists l1; split; assumption.
Qed.

End ExitLogic.

Lemma exits_in_weaken {A} (S S' : component -> Prop) (m : M A) :
  (forall c, S c -> S' c) -> exits_in S m -> exits_in S' m.
Proof.
  intros Hsub Hm w p; destruct (Hm w p) as [l [E F]].
  exists l; split; [exact E|].
  apply (Forall_impl S' Hsub F).
Qed.

Create HintDb exits.
#[local] Hint Resolve exits_in_ret exits_in_raise exits_in_len_sys_argv
  exits_in_sys_argv_at exits_in_stdout_write exits_in_stderr_write
  exits_in_print exits_in_path_exists exits_in_path_is_file
  exits_in_path_read_text exits_in_extract exits_in_if : exits.

(** Walks down a program built from [bind], [if] and the primitives. *)
Ltac exits_auto :=
  repeat first
    [ apply exits_in_bind; [|intros ?]
    | apply exits_in_if
    | match goal with x : (_ * _)%type |- _ => destruct x end
    | solve [auto with exits] ].

Lemma get_args_never_exits :
  never_exits arg_parser.get_args_from_command_line.
Proof.
  unfold never_exits, arg_parser.get_args_from_command_line; exits_auto.
Qed.

Lemma read_file_content_never_exits (file_path : string) :
  never_exits (file_reader.read_file_content file_path).
Proof.
  unfold never_exits, file_reader.read_file_content; exits_auto.
  apply exits_in_try_except; [auto with exits|].
  repeat constructor; simpl; auto with exits.
Qed.

Lemma run_never_exits : never_exits extract_recall.run.
Proof.
  unfold never_exits, extract_recall.run.
  apply exits_in_bind; [apply get_args_never_exits|intros [file_path fmt]].
  apply exits_in_bind; [apply read_file_content_never_exits|intros content].
  exits_auto.
Qed.

(** The handler adds its own exit, and only that, to what the unit of work
    does. *)
Lemma run_with_error_handling_exits {T} (S : component -> Prop) (func : M T) :
  S ErrorHandler -> exits_in S func ->
  exits_in S (error_handler.run_with_error_handling func).
Proof.
  intros HS Hf; unfold error_handler.run_with_error_handling.
  apply exits_in_try_except; [exact Hf|].
  repeat constructor; simpl; intros e;
    (apply exits_in_bind;
     [apply exits_in_stderr_write | intros _; apply exits_in_sys_exit; exact HS]).
Qed.

Lemma main_exits_in_error_handler :
  exits_in (eq ErrorHandler) extract_recall.main.
Proof.
  apply run_with_error_handling_exits; [reflexivity|].
  apply (exits_in_weaken (fun _ => False)); [intros c []|].
  apply run_never_exits.
Qed.

Lemma standalone_exits_by_itself :
  exits_in (eq StandaloneScript) trafilatura_recall_extractor.main.
Proof.
  unfold trafilatura_recall_extractor.main.
  apply exits_in_bind; [auto with exits|intros n].
  apply exits_in_bind.
  { apply exits_in_if; [|auto with exits].
    apply exits_in_bind; [auto with exits|intros _].
    apply exits_in_sys_exit; reflexivity. }
  intros _.
  apply exits_in_bind; [auto with exits|intros file_path].
  apply exits_in_bind; [auto with exits|intros ex].
  apply exits_in_bind; [auto with exits|intros isf].
  apply exits_in_bind.
  { apply exits_in_if; [|auto with exits].
    apply exits_in_bind; [auto with exits|intros _].
    apply exits_in_sys_exit; reflexivity. }
  intros _.
  apply exits_in_bind.
  { apply exits_in_try_except; [auto with exits|].
    repeat constructor; simpl; intros e.
    apply exits_in_bind; [auto with exits|intros _].
    apply exits_in_sys_exit; reflexivity. }
  intros content.
  apply exits_in_bind; auto with exits.
Qed.

(** C3, as the specification states it, fails: the standalone script
    trafilatura-recall-extractor.py, run without an argument, terminates
    the process from its own [main], not from the Error Handler. *)
Lemma standalone_exits_outside_handler :
  ~ (forall script : M unit,
        In script [extract_recall.main; trafilatura_recall_extractor.main] ->
        exits_in (eq ErrorHandler) script).
Proof.
  intros H.
  destruct (H trafilatura_recall_extractor.main (or_intror (or_introl eq_refl))
              (mkWorld ["trafilatura-recall-extractor.py"]
                 (fun _ => Absent) (fun _ => Ok PyNone))
              proc0) as [l [E F]].
  vm_compute in E; subst l.
  inversion F as [|c l' Hc _]; discriminate Hc.
Qed.

(** C3, amended: in the pipeline of extract-recall.py the process is
    terminated only inside the Error Handler: the Argument Parser, the
    File Reader and the unit of work [run] (with its extraction call)
    never call [sys.exit], the Error Handler wrapped around a unit of work
    that does not exit adds exits of its own only, and so every exit of
    [main] is the handler's.  The standalone script
    trafilatura-recall-extractor.py does not go through the Error Handler:
    every exit it makes is written in its own [main]. *)
Theorem termination_only_in_error_handler_of_pipeline :
  never_exits arg_parser.get_args_from_command_line
  /\ (forall file_path, never_exits (file_reader.read_file_content file_path))
  /\ never_exits extract_recall.run
  /\ (forall (T : Type) (func : M T),
         never_exits func ->
         exits_in (eq ErrorHandler) (error_handler.run_with_error_handling func))
  /\ exits_in (eq ErrorHandler) extract_recall.main
  /\ exits_in (eq StandaloneScript) trafilatura_recall_extractor.main.
Proof.
  split; [apply get_args_never_exits|].
  split; [apply read_file_content_never_exits|].
  split; [apply run_never_exits|].
  split; [|split; [apply main_exits_in_error_handler
                  |apply standalone_exits_by_itself]].
  intros T func Hf.
  apply run_with_error_handling_exits; [reflexivity|].
  apply (exits_in_weaken (fun _ => False)); [intros c []|exact Hf].
Qed.

Lemma termination_only_in_error_handler_of_pipeline_witness :
  exits_in (eq ErrorHandler)
    (error_handler.run_with_error_handling
       (raise_ (new_exc RuntimeError "boom") : M unit)).
Proof.
  apply (proj1 (proj2 (proj2 (proj2
           termination_only_in_error_handler_of_pipeline)))).
  apply exits_in_raise.
Defined.

(** ** Determinism *)

Lemma read_file_content_agree (w1 w2 : World) (p : Proc) (path : string) :
  fs w1 path = fs w2 path ->
  file_reader.read_file_content path w1 p =
  file_reader.read_file_content path w2 p.
Proof.
  intros H.
  destruct (fs w2 path) as [| | |[content | e]] eqn:E2.
  - rewrite !read_file_content_absent; auto.
  - rewrite !read_file_content_not_file; auto;
      try (rewrite E2; discriminate); try (rewrite H; discriminate);
      intros r; try (rewrite E2; discriminate); rewrite H; discriminate.
  - rewrite !read_file_content_not_file; auto;
      try (rewrite E2; discriminate); try (rewrite H; discriminate);
      intros r; try (rewrite E2; discriminate); rewrite H; discriminate.
  - rewrite (read_file_content_ok w1 p path content H).
    rewrite (read_file_content_ok w2 p path content E2).
    reflexivity.
  - destruct (isinstance e Exception) eqn:HE.
    + rewrite (read_file_content_wrapped w1 p path e H HE).
      rewrite (read_file_content_wrapped w2 p path e E2 HE).
      reflexivity.
    + rewrite (read_file_content_escapes w1 p path e H HE).
      rewrite (read_file_content_escapes w2 p path e E2 HE).
      reflexivity.
Qed.

(** The handler consults the world only through the unit of work. *)
Lemma run_with_error_handling_agree {T} (f1 f2 : M T) (w1 w2 : World) (p : Proc) :
  f1 w1 p = f2 w2 p ->
  error_handler.run_with_error_handling f1 w1 p =
  error_handler.run_with_error_handling f2 w2 p.
Proof.
  intros H.
  unfold error_handler.run_with_error_handling, try_except.
  rewrite H; destruct (f2 w2 p) as [[a | e] p']; [reflexivity|].
  unfold find_clause.
  destruct (isinstance e ValueError); [reflexivity|].
  destruct (isinstance e FileNotFoundError); [reflexivity|].
  destruct (isinstance e IOError); [reflexivity|].
  destruct (isinstance e Exception); reflexivity.
Qed.

Section Determinism.

Variables w1 w2 : World.
Variables prog1 prog2 path fmt : string.
Variables rest1 rest2 : list string.
Hypothesis Hargv1 : sys_argv w1 = prog1 :: path :: fmt :: rest1.
Hypothesis Hargv2 : sys_argv w2 = prog2 :: path :: fmt :: rest2.
Hypothesis Hfs : fs w1 path = fs w2 path.
Hypothesis Hextract :
  forall content,
    trafilatura_extract w1 (mkCall content true (Some fmt)) =
    trafilatura_extract w2 (mkCall content true (Some fmt)).

Lemma run_agree (p : Proc) : extract_recall.run w1 p = extract_recall.run w2 p.
Proof.
  destruct (arg_parser.str_in fmt arg_parser.valid_formats) eqn:Hin.
  - assert (Hfmt : In fmt ["html"; "txt"]) by (apply str_in_spec; exact Hin).
    rewrite (run_steps w1 prog1 path fmt rest1 Hargv1 Hfmt p).
    rewrite (run_steps w2 prog2 path fmt rest2 Hargv2 Hfmt p).
    rewrite (read_file_content_agree w1 w2 p path Hfs).
    destruct (file_reader.read_file_content path w2 p) as [[content | e] p1];
      [|reflexivity].
    cbv zeta; rewrite Hextract; reflexivity.
  - unfold extract_recall.run.
    pose proof (get_args_two w1 p _ _ _ _ Hargv1) as G1.
    pose proof (get_args_two w2 p _ _ _ _ Hargv2) as G2.
    rewrite Hin in G1, G2.
    rewrite (bind_raised _ G1), (bind_raised _ G2); reflexivity.
Qed.

End Determinism.

(** C8: two invocations of extract-recall.py with the same file path and
    the same output format, on worlds that agree on the file at that path
    and on what the collaborator does with [favor_recall=True] and that
    format, end with the same exit status, the same standard output, the
    same error stream and the same calls made: nothing else (the script
    name, further arguments, other files, other collaborator behaviour)
    influences any step. *)
Theorem extract_recall_deterministic :
  forall (w1 w2 : World) (prog1 prog2 path fmt : string)
         (rest1 rest2 : list string),
    sys_argv w1 = prog1 :: path :: fmt :: rest1 ->
    sys_argv w2 = prog2 :: path :: fmt :: rest2 ->
    fs w1 path = fs w2 path ->
    (forall content,
        trafilatura_extract w1 (mkCall content true (Some fmt)) =
        trafilatura_extract w2 (mkCall content true (Some fmt))) ->
    run_script extract_recall.main w1 = run_script extract_recall.main w2.
Proof.
  intros w1 w2 prog1 prog2 path fmt rest1 rest2 Hargv1 Hargv2 Hfs Hext.
  unfold run_script, extract_recall.main.
  rewrite (run_with_error_handling_agree extract_recall.run extract_recall.run
             w1 w2 proc0
             (run_agree w1 w2 prog1 prog2 path fmt rest1 rest2
                Hargv1 Hargv2 Hfs Hext proc0)).
  reflexivity.
Qed.

Lemma extract_recall_deterministic_witness :
  run_script extract_recall.main
    (mkWorld ["extract-recall.py"; "page.html"; "txt"]
       (fun _ => Regular (Ok "<p>Hello</p>"))
       (fun c => Ok (PyStr (call_content c)))) =
  run_script extract_recall.main
    (mkWorld ["./extract-recall.py"; "page.html"; "txt"; "ignored"]
       (fun f => if String.eqb f "page.html"
                 then Regular (Ok "<p>Hello</p>") else Absent)
       (fun c => if call_favor_recall c
                 then Ok (PyStr (call_content c)) else Ok PyNone)).
Proof.
  apply (extract_recall_deterministic
           (mkWorld ["extract-recall.py"; "page.html"; "txt"]
              (fun _ => Regular (Ok "<p>Hello</p>"))
              (fun c => Ok (PyStr (call_content c))))
           (mkWorld ["./extract-recall.py"; "page.html"; "txt"; "ignored"]
              (fun f => if String.eqb f "page.html"
                        then Regular (Ok "<p>Hello</p>") else Absent)
              (fun c => if call_favor_recall c
                        then Ok (PyStr (call_content c)) else Ok PyNone))
           "extract-recall.py" "./extract-recall.py" "page.html" "txt"
           [] ["ignored"]).
  - reflexivity.
  - reflexivity.
  - reflexivity.
  - intros content; reflexivity.
Defined.

(** * Further properties of the code *)

(** ** What the Argument Parser and the File Reader return *)

(** The three shapes of [sys.argv] the parser distinguishes. *)
Lemma sys_argv_shape (w : World) :
  length (sys_argv w) < 3 \/
  exists prog a b rest, sys_argv w = prog :: a :: b :: rest.
Proof.
  destruct (sys_argv w) as [|prog [|a [|b rest]]]; simpl;
    try (left; lia).
  right; exists prog, a, b, rest; reflexivity.
Qed.

(** X1: the Argument Parser returns a pair exactly when [sys.argv] has a
    script name followed by two arguments at least and the second is
    ["html"] or ["txt"]; the pair is then those two arguments and the
    process state is untouched. *)
Theorem get_args_returns_iff :
  forall (w : World) (p p' : Proc) (file_path output_format : string),
    arg_parser.get_args_from_command_line w p =
      (Ok (file_path, output_format), p')
    <->
    (p' = p /\
     In output_format ["html"; "txt"] /\
     exists prog rest,
       sys_argv w = prog :: file_path :: output_format :: rest).
Proof.
  intros w p p' file_path output_format; split.
  - intros H.
    destruct (sys_argv_shape w) as [Hlen | [prog [a [b [rest Hargv]]]]].
    + rewrite (get_args_short w p Hlen) in H; discriminate H.
    + rewrite (get_args_two w p _ _ _ _ Hargv) in H.
      destruct (arg_parser.str_in b arg_parser.valid_formats) eqn:Hin;
        [|discriminate H].
      injection H as -> -> ->.
      split; [reflexivity|]; split; [apply str_in_spec; exact Hin|].
      exists prog, rest; exact Hargv.
  - intros [-> [Hin [prog [rest Hargv]]]].
    apply (get_args_valid w prog file_path output_format rest Hargv Hin).
Qed.

(** X2: whatever the arguments, the Argument Parser only ever raises
    [ValueError], and it leaves the process state (both streams, the
    collaborator calls, the exits) exactly as it found it. *)
Theorem get_args_raises_only_value_error :
  forall (w : World) (p : Proc),
    snd (arg_parser.get_args_from_command_line w p) = p
    /\
    (forall e p',
        arg_parser.get_args_from_command_line w p = (Raised e, p') ->
        exc_class e = ValueError).
Proof.
  intros w p.
  destruct (sys_argv_shape w) as [Hlen | [prog [a [b [rest Hargv]]]]].
  - rewrite (get_args_short w p Hlen); split; [reflexivity|].
    intros e p' H; injection H as <- _; reflexivity.
  - rewrite (get_args_two w p _ _ _ _ Hargv).
    destruct (arg_parser.str_in b arg_parser.valid_formats);
      (split; [reflexivity|]); intros e p' H;
      [discriminate H | injection H as <- _; reflexivity].
Qed.

(** The File Reader, case by case on what is at the path. *)
Lemma read_file_content_cases (w : World) (p : Proc) (path : string) :
  match fs w path with
  | Absent =>
      file_reader.read_file_content path w p =
        (Raised (new_exc FileNotFoundError ("File not found: " ++ path)), p)
  | Directory | Special =>
      file_reader.read_file_content path w p =
        (Raised (new_exc ValueError ("Path is not a file: " ++ path)), p)
  | Regular (Ok content) =>
      file_reader.read_file_content path w p = (Ok content, p)
  | Regular (Raised e) =>
      file_reader.read_file_content path w p =
        if isinstance e Exception
        then (Raised (mkExc IOError
                        (PyStr ("Error reading file: " ++ str_exc e)) (Some e)),
              p)
        else (Raised e, p)
  end.
Proof.
  destruct (fs w path) as [| | |[content | e]] eqn:E.
  - apply read_file_content_absent; exact E.
  - apply read_file_content_not_file;
      [rewrite E; discriminate | intros r; rewrite E; discriminate].
  - apply read_file_content_not_file;
      [rewrite E; discriminate | intros r; rewrite E; discriminate].
  - apply read_file_content_ok; exact E.
  - destruct (isinstance e Exception) eqn:HE.
    + apply read_file_content_wrapped; assumption.
    + apply read_file_content_escapes; assumption.
Qed.

(** X3: the File Reader returns a content exactly when the path names a
    regular file whose UTF-8 read succeeds, and what it returns is then
    the whole text of that read; the process state is untouched. *)
Theorem read_file_content_returns_iff :
  forall (w : World) (p p' : Proc) (path content : string),
    file_reader.read_file_content path w p = (Ok content, p')
    <->
    (p' = p /\ fs w path = Regular (Ok content)).
Proof.
  intros w p p' path content.
  pose proof (read_file_content_cases w p path) as Hc.
  split.
  - intros H; rewrite H in Hc.
    destruct (fs w path) as [| | |[content' | e]];
      try discriminate Hc.
    + injection Hc as -> ->; split; reflexivity.
    + destruct (isinstance e Exception); discriminate Hc.
  - intros [-> Hfs]; rewrite Hfs in Hc; exact Hc.
Qed.

(** X4: the File Reader never writes to a stream, never calls the
    collaborator and never exits: in every case, success or failure, the
    process state after it is the state before it. *)
Theorem read_file_content_leaves_state :
  forall (w : World) (p : Proc) (path : string),
    snd (file_reader.read_file_content path w p) = p.
Proof.
  intros w p path.
  pose proof (read_file_content_cases w p path) as Hc.
  destruct (fs w path) as [| | |[content | e]];
    try (rewrite Hc; reflexivity).
  rewrite Hc; destruct (isinstance e Exception); reflexivity.
Qed.


Lemma get_args_returns_iff_witness :
  arg_parser.get_args_from_command_line
    (mkWorld ["extract-recall.py"; "page.html"; "html"; "more"]
       (fun _ => Absent) (fun _ => Ok PyNone)) proc0 =
    (Ok ("page.html", "html"), proc0).
Proof.
  apply (proj2 (get_args_returns_iff
                  (mkWorld ["extract-recall.py"; "page.html"; "html"; "more"]
                     (fun _ => Absent) (fun _ => Ok PyNone))
                  proc0 proc0 "page.html" "html")).
  split; [reflexivity|]; split; [simpl; left; reflexivity|].
  exists "extract-recall.py", ["more"]; reflexivity.
Defined.

Lemma get_args_raises_only_value_error_witness :
  exc_class (new_exc ValueError "Usage: <script> <file_path> <output_format>") =
    ValueError.
Proof.
  apply (proj2 (get_args_raises_only_value_error
                  (mkWorld ["extract-recall.py"] (fun _ => Absent)
                     (fun _ => Ok PyNone)) proc0)
           (new_exc ValueError "Usage: <script> <file_path> <output_format>")
           proc0).
  reflexivity.
Defined.

Lemma read_file_content_returns_iff_witness :
  proc0 = proc0 /\
  fs (mkWorld [] (fun f => if String.eqb f "a.txt" then Regular (Ok "text")
                           else Absent) (fun _ => Ok PyNone)) "a.txt" =
    Regular (Ok "text").
Proof.
  apply (proj1 (read_file_content_returns_iff
                  (mkWorld [] (fun f => if String.eqb f "a.txt"
                                        then Regular (Ok "text") else Absent)
                     (fun _ => Ok PyNone))
                  proc0 proc0 "a.txt" "text")).
  reflexivity.
Defined.


(** ** What the Error Handler does with a failure *)

(** The prefix under which the handler reports an [Exception]: the first
    three clauses print [Error:], the last one [Unexpected error:]. *)
Lemma handler_on_exception {T} (func : M T) (w : World) (p p' : Proc) (e : pyexc) :
  func w p = (Raised e, p') ->
  isinstance e Exception = true ->
  error_handler.run_with_error_handling func w p =
    (Raised (exit1 e),
     reported (if isinstance e ValueError || isinstance e OSError
               then "Error: " else "Unexpected error: ") e p').
Proof.
  intros H HE.
  destruct (isinstance e ValueError) eqn:HV.
  - apply (run_with_error_handling_known T func w p p' e H).
    left; exact HV.
  - destruct (isinstance e OSError) eqn:HO.
    + apply (run_with_error_handling_known T func w p p' e H).
      right; exact HO.
    + apply (run_with_error_handling_unexpected T func w p p' e H HE HV HO).
Qed.

(** X6: whatever the unit of work, when it raises an [Exception] the
    Error Handler appends exactly one line to the error stream (the
    prefix [Error: ] for a [ValueError] or an [OSError], [Unexpected
    error: ] otherwise, then [str(e)] and a newline), leaves standard
    output and everything the unit of work did as they are, and ends in
    [SystemExit(1)], so that the process exits with status 1. *)
Theorem run_with_error_handling_reports :
  forall (T : Type) (func : M T) (w : World) (p p' : Proc) (e : pyexc),
    func w p = (Raised e, p') ->
    isinstance e Exception = true ->
    exists r p'',
      error_handler.run_with_error_handling func w p = (r, p'')
      /\ exit_status r = 1%Z
      /\ stdout p'' = stdout p'
      /\ stderr p'' =
           stderr p' ++
           (if isinstance e ValueError || isinstance e OSError
            then "Error: " else "Unexpected error: ") ++ str_exc e ++ nl
      /\ extract_calls p'' = extract_calls p'
      /\ exit_sites p'' = (exit_sites p' ++ [ErrorHandler])%list.
Proof.
  intros T func w p p' e H HE.
  eexists; eexists; split; [apply (handler_on_exception func w p p' e H HE)|].
  repeat split.
Qed.

Lemma run_with_error_handling_reports_witness :
  exists r p'',
    error_handler.run_with_error_handling
      (stdout_write "partial" ;; raise_ (new_exc RuntimeError "boom") : M unit)
      (mkWorld [] (fun _ => Absent) (fun _ => Ok PyNone)) proc0 = (r, p'')
    /\ exit_status r = 1%Z
    /\ stdout p'' = stdout (mkProc "partial" "" [] [])
    /\ stderr p'' =
         stderr (mkProc "partial" "" [] []) ++
         (if isinstance (new_exc RuntimeError "boom") ValueError
             || isinstance (new_exc RuntimeError "boom") OSError
          then "Error: " else "Unexpected error: ")
         ++ str_exc (new_exc RuntimeError "boom") ++ nl
    /\ extract_calls p'' = extract_calls (mkProc "partial" "" [] [])
    /\ exit_sites p'' =
         (exit_sites (mkProc "partial" "" [] []) ++ [ErrorHandler])%list.
Proof.
  apply (run_with_error_handling_reports unit
           (stdout_write "partial" ;; raise_ (new_exc RuntimeError "boom"))
           (mkWorld [] (fun _ => Absent) (fun _ => Ok PyNone)) proc0
           (mkProc "partial" "" [] []) (new_exc RuntimeError "boom")).
  - reflexivity.
  - reflexivity.
Defined.

(** X7: what is not an [Exception] (a [KeyboardInterrupt], a
    [SystemExit] raised inside the unit of work) goes through the Error
    Handler untouched: the handler writes nothing, does not exit by
    itself, and the exception leaves it as the unit of work raised it. *)
Theorem run_with_error_handling_passes_base_exceptions :
  forall (T : Type) (func : M T) (w : World) (p p' : Proc) (e : pyexc),
    func w p = (Raised e, p') ->
    isinstance e Exception = false ->
    error_handler.run_with_error_handling func w p = (Raised e, p').
Proof.
  intros T func w p p' e H HE.
  apply (run_with_error_handling_escapes T func w p p' e H HE).
Qed.

Lemma run_with_error_handling_passes_base_exceptions_witness :
  error_handler.run_with_error_handling (sys_exit ExtractionCall 3 : M unit)
    (mkWorld [] (fun _ => Absent) (fun _ => Ok PyNone)) proc0 =
    (Raised (mkExc SystemExit (PyInt 3) None), mkProc "" "" [] [ExtractionCall]).
Proof.
  apply (run_with_error_handling_passes_base_exceptions unit
           (sys_exit ExtractionCall 3)
           (mkWorld [] (fun _ => Absent) (fun _ => Ok PyNone)) proc0).
  - reflexivity.
  - reflexivity.
Defined.

(** X8: wrapping a unit of work twice in the Error Handler is the same as
    wrapping it once: the [SystemExit] of the inner handler passes through
    the outer one, so a failure is reported once. *)
Theorem run_with_error_handling_idempotent :
  forall (T : Type) (func : M T) (w : World) (p : Proc),
    error_handler.run_with_error_handling
      (error_handler.run_with_error_handling func) w p =
    error_handler.run_with_error_handling func w p.
Proof.
  intros T func w p.
  destruct (func w p) as [[a | e] p'] eqn:F.
  - pose proof (run_with_error_handling_ok T func w p p' a F) as H1.
    rewrite H1.
    apply (run_with_error_handling_ok T _ w p p' a H1).
  - destruct (isinstance e Exception) eqn:HE.
    + pose proof (handler_on_exception func w p p' e F HE) as H1.
      rewrite H1.
      apply (run_with_error_handling_escapes T _ w p _ (exit1 e) H1).
      reflexivity.
    + pose proof (run_with_error_handling_escapes T func w p p' e F HE) as H1.
      rewrite H1.
      apply (run_with_error_handling_escapes T _ w p p' e H1 HE).
Qed.

(** ** The process of extract-recall.py, failure by failure *)

Lemma string_app_assoc (a b c : string) : (a ++ b) ++ c = a ++ (b ++ c).
Proof. induction a as [|x a IH]; simpl; [reflexivity | rewrite IH; reflexivity]. Qed.

(** X9: started with fewer than two arguments after the script name,
    extract-recall.py exits with status 1 after the single line
    [Error: Usage: <script> <file_path> <output_format>] on the error
    stream; it writes nothing to standard output and calls the
    collaborator not at all. *)
Theorem extract_recall_usage_error :
  forall (w : World),
    length (sys_argv w) < 3 ->
    run_script extract_recall.main w =
      (1%Z, mkProc ""
              ("Error: Usage: <script> <file_path> <output_format>" ++ nl)
              [] [ErrorHandler]).
Proof.
  intros w Hlen.
  assert (Hrun : extract_recall.run w proc0 =
                 (Raised (new_exc ValueError
                            "Usage: <script> <file_path> <output_format>"),
                  proc0)).
  { unfold extract_recall.run.
    apply (bind_raised _ (get_args_short w proc0 Hlen)). }
  apply (run_script_eq extract_recall.main w
           (Raised (exit1 (new_exc ValueError
                             "Usage: <script> <file_path> <output_format>")))).
  apply (run_with_error_handling_known _ _ _ _ _ _ Hrun).
  left; reflexivity.
Qed.

Lemma extract_recall_usage_error_witness :
  run_script extract_recall.main
    (mkWorld ["extract-recall.py"; "page.html"]
       (fun _ => Regular (Ok "<p>Hi</p>")) (fun _ => Ok (PyStr "Hi"))) =
    (1%Z, mkProc ""
            ("Error: Usage: <script> <file_path> <output_format>" ++ nl)
            [] [ErrorHandler]).
Proof.
  apply (extract_recall_usage_error
           (mkWorld ["extract-recall.py"; "page.html"]
              (fun _ => Regular (Ok "<p>Hi</p>")) (fun _ => Ok (PyStr "Hi")))).
  simpl; lia.
Defined.

(** X10: the output format is checked before the file is looked at: with
    a format other than ["html"] and ["txt"], extract-recall.py exits with
    status 1 after the line [Error: Invalid output format: <fmt>. Valid
    formats: html, txt], whatever is at the path (nothing, a directory, an
    unreadable file), and the collaborator is not called. *)
Theorem extract_recall_invalid_format_first :
  forall (w : World) (prog path fmt : string) (rest : list string),
    sys_argv w = prog :: path :: fmt :: rest ->
    ~ In fmt ["html"; "txt"] ->
    run_script extract_recall.main w =
      (1%Z, mkProc ""
              ("Error: Invalid output format: " ++ fmt
               ++ ". Valid formats: html, txt" ++ nl)
              [] [ErrorHandler]).
Proof.
  intros w prog path fmt rest Hargv Hnot.
  assert (Hrun : extract_recall.run w proc0 =
                 (Raised (new_exc ValueError
                            ("Invalid output format: " ++ fmt
                             ++ ". Valid formats: " ++ "html, txt")),
                  proc0)).
  { unfold extract_recall.run.
    pose proof (get_args_two w proc0 prog path fmt rest Hargv) as G.
    unfold arg_parser.valid_formats in G at 1.
    rewrite (str_in_false _ _ Hnot) in G.
    apply (bind_raised _ G). }
  apply (run_script_eq extract_recall.main w
           (Raised (exit1 (new_exc ValueError
                             ("Invalid output format: " ++ fmt
                              ++ ". Valid formats: " ++ "html, txt"))))).
  unfold extract_recall.main.
  rewrite (run_with_error_handling_known _ _ _ _ _ _ Hrun
             (or_introl eq_refl)).
  unfold reported, str_exc, new_exc; simpl.
  rewrite string_app_assoc; reflexivity.
Qed.

Lemma extract_recall_invalid_format_first_witness :
  run_script extract_recall.main
    (mkWorld ["extract-recall.py"; "missing.html"; "pdf"]
       (fun _ => Absent) (fun _ => Ok PyNone)) =
    (1%Z, mkProc ""
            ("Error: Invalid output format: " ++ "pdf"
             ++ ". Valid formats: html, txt" ++ nl)
            [] [ErrorHandler]).
Proof.
  apply (extract_recall_invalid_format_first
           (mkWorld ["extract-recall.py"; "missing.html"; "pdf"]
              (fun _ => Absent) (fun _ => Ok PyNone))
           "extract-recall.py" "missing.html" "pdf" []).
  - reflexivity.
  - simpl; intros [H | [H | H]]; [discriminate H | discriminate H | exact H].
Defined.

(** X11: when the file exists and is regular but its read raises an
    [Exception] (undecodable bytes, permissions), extract-recall.py exits
    with status 1 after the line [Error: Error reading file: <cause>], the
    collaborator is not called and nothing goes to standard output. *)
Theorem extract_recall_read_error :
  forall (w : World) (prog path fmt : string) (rest : list string)
         (cause : pyexc),
    sys_argv w = prog :: path :: fmt :: rest ->
    In fmt ["html"; "txt"] ->
    fs w path = Regular (Raised cause) ->
    isinstance cause Exception = true ->
    run_script extract_recall.main w =
      (1%Z, mkProc "" ("Error: Error reading file: " ++ str_exc cause ++ nl)
              [] [ErrorHandler]).
Proof.
  intros w prog path fmt rest cause Hargv Hfmt Hfs HE.
  pose proof (run_read_failed w prog path fmt rest Hargv Hfmt proc0 _
                (read_file_content_wrapped w proc0 path cause Hfs HE)) as Hrun.
  apply (run_script_eq extract_recall.main w
           (Raised (exit1 (mkExc IOError
                             (PyStr ("Error reading file: " ++ str_exc cause))
                             (Some cause))))).
  unfold extract_recall.main.
  rewrite (run_with_error_handling_known _ _ _ _ _ _ Hrun
             (or_intror eq_refl)).
  reflexivity.
Qed.

Lemma extract_recall_read_error_witness :
  run_script extract_recall.main
    (mkWorld ["extract-recall.py"; "secret.html"; "txt"]
       (fun _ => Regular (Raised (new_exc PermissionError
                                    "[Errno 13] Permission denied: 'secret.html'")))
       (fun _ => Ok PyNone)) =
    (1%Z, mkProc ""
            ("Error: Error reading file: " ++
             str_exc (new_exc PermissionError
                        "[Errno 13] Permission denied: 'secret.html'") ++ nl)
            [] [ErrorHandler]).
Proof.
  apply (extract_recall_read_error
           (mkWorld ["extract-recall.py"; "secret.html"; "txt"]
              (fun _ => Regular (Raised (new_exc PermissionError
                                    "[Errno 13] Permission denied: 'secret.html'")))
              (fun _ => Ok PyNone))
           "extract-recall.py" "secret.html" "txt" []).
  - reflexivity.
  - simpl; right; left; reflexivity.
  - reflexivity.
  - reflexivity.
Defined.

(** ** The process of extract-recall.py as a whole *)

(** Every run of [run]: either it fails before the collaborator is called,
    with the state untouched, or the arguments and the file were good and
    the collaborator decides. *)
Lemma run_cases (w : World) (p : Proc) :
  (exists e,
      extract_recall.run w p = (Raised e, p) /\
      (isinstance e Exception = true \/
       exists path, fs w path = Regular (Raised e) /\
                    isinstance e Exception = false))
  \/
  (exists prog path fmt rest content,
      sys_argv w = prog :: path :: fmt :: rest /\
      In fmt ["html"; "txt"] /\
      fs w path = Regular (Ok content) /\
      extract_recall.run w p =
        match trafilatura_extract w (mkCall content true (Some fmt)) with
        | Ok v => (Ok tt, printed v (called (mkCall content true (Some fmt)) p))
        | Raised e => (Raised e, called (mkCall content true (Some fmt)) p)
        end).
Proof.
  destruct (sys_argv_shape w) as [Hlen | [prog [path [fmt [rest Hargv]]]]].
  - left; eexists; split.
    + unfold extract_recall.run; apply (bind_raised _ (get_args_short w p Hlen)).
    + left; reflexivity.
  - destruct (arg_parser.str_in fmt arg_parser.valid_formats) eqn:Hin.
    + assert (Hfmt : In fmt ["html"; "txt"]) by (apply str_in_spec; exact Hin).
      pose proof (run_steps w prog path fmt rest Hargv Hfmt p) as Hrun.
      pose proof (read_file_content_cases w p path) as Hc.
      destruct (fs w path) as [| | |[content | cause]] eqn:Hfs;
        try (rewrite Hc in Hrun; left; eexists; split;
             [exact Hrun | left; reflexivity]).
      * right; exists prog, path, fmt, rest, content.
        rewrite Hc in Hrun; repeat split; assumption.
      * destruct (isinstance cause Exception) eqn:HE; rewrite Hc in Hrun;
          left; eexists; (split; [exact Hrun|]).
        -- left; reflexivity.
        -- right; exists path; split; assumption.
    + left; eexists; split.
      * unfold extract_recall.run.
        pose proof (get_args_two w p prog path fmt rest Hargv) as G.
        rewrite Hin in G; apply (bind_raised _ G).
      * left; reflexivity.
Qed.

(** X12: in every run of extract-recall.py the collaborator is called at
    most once, and when it is called the arguments were valid, the file at
    the path was read, and the call carries that file's content,
    [favor_recall=True] and the output format of the command line. *)
Theorem extract_recall_calls_collaborator_once :
  forall (w : World),
    extract_calls (snd (run_script extract_recall.main w)) = []
    \/
    exists prog path fmt rest content,
      sys_argv w = prog :: path :: fmt :: rest /\
      In fmt ["html"; "txt"] /\
      fs w path = Regular (Ok content) /\
      extract_calls (snd (run_script extract_recall.main w)) =
        [mkCall content true (Some fmt)].
Proof.
  intros w.
  assert (Hcalls : forall r p,
             extract_recall.run w proc0 = (r, p) ->
             extract_calls (snd (run_script extract_recall.main w)) =
             extract_calls p).
  { intros r p Hrun; unfold run_script, extract_recall.main.
    destruct r as [a | e].
    - rewrite (run_with_error_handling_ok _ _ _ _ _ a Hrun); reflexivity.
    - destruct (isinstance e Exception) eqn:HE.
      + rewrite (handler_on_exception _ _ _ _ e Hrun HE); reflexivity.
      + rewrite (run_with_error_handling_escapes _ _ _ _ _ e Hrun HE).
        reflexivity. }
  destruct (run_cases w proc0)
    as [[e [Hrun _]] | [prog [path [fmt [rest [content [Ha [Hf [Hfs Hrun]]]]]]]]].
  - left; rewrite (Hcalls _ _ Hrun); reflexivity.
  - right; exists prog, path, fmt, rest, content.
    repeat split; try assumption.
    destruct (trafilatura_extract w (mkCall content true (Some fmt)));
      rewrite (Hcalls _ _ Hrun); reflexivity.
Qed.

(** X13: when neither a read nor the collaborator raises anything that is
    not an [Exception], a run of extract-recall.py ends in one of two
    ways.  Success: exit status 0, one [print] of the collaborator's value
    on standard output, nothing on the error stream, no [sys.exit].
    Failure: exit status 1, nothing on standard output, exactly one line
    [Error: ...] or [Unexpected error: ...] on the error stream, written
    by the Error Handler, which then exits. *)
Theorem extract_recall_succeeds_or_fails :
  forall (w : World),
    (forall path cause,
        fs w path = Regular (Raised cause) -> isinstance cause Exception = true) ->
    (forall c e,
        trafilatura_extract w c = Raised e -> isinstance e Exception = true) ->
    exists p,
      (run_script extract_recall.main w = (0%Z, p)
       /\ stderr p = "" /\ exit_sites p = []
       /\ exists c v, trafilatura_extract w c = Ok v
                      /\ extract_calls p = [c]
                      /\ stdout p = str v ++ nl)
      \/
      (run_script extract_recall.main w = (1%Z, p)
       /\ stdout p = "" /\ exit_sites p = [ErrorHandler]
       /\ exists e,
            stderr p =
              (if isinstance e ValueError || isinstance e OSError
               then "Error: " else "Unexpected error: ") ++ str_exc e ++ nl).
Proof.
  intros w Hread Hext.
  assert (Hfail : forall e p0,
             extract_recall.run w proc0 = (Raised e, p0) ->
             isinstance e Exception = true ->
             stdout p0 = "" -> stderr p0 = "" -> exit_sites p0 = [] ->
             exists p,
               run_script extract_recall.main w = (1%Z, p)
               /\ stdout p = "" /\ exit_sites p = [ErrorHandler]
               /\ exists e',
                    stderr p =
                      (if isinstance e' ValueError || isinstance e' OSError
                       then "Error: " else "Unexpected error: ")
                      ++ str_exc e' ++ nl).
  { intros e p0 Hrun HE Hout Herr Hsites.
    eexists; split.
    - apply (run_script_eq extract_recall.main w (Raised (exit1 e))).
      apply (handler_on_exception _ _ _ _ e Hrun HE).
    - unfold reported; simpl; rewrite Hout, Herr, Hsites.
      split; [reflexivity|]; split; [reflexivity|].
      exists e; reflexivity. }
  destruct (run_cases w proc0)
    as [[e [Hrun Hk]] | [prog [path [fmt [rest [content [Ha [Hf [Hfs Hrun]]]]]]]]].
  - assert (HE : isinstance e Exception = true).
    { destruct Hk as [Hk | [path [Hfs _]]]; [exact Hk | apply (Hread _ _ Hfs)]. }
    destruct (Hfail e proc0 Hrun HE eq_refl eq_refl eq_refl) as [p Hp].
    exists p; right; exact Hp.
  - destruct (trafilatura_extract w (mkCall content true (Some fmt)))
      as [v | e] eqn:Hcall.
    + eexists; left; split.
      * apply (run_script_eq extract_recall.main w (Ok tt)).
        apply (run_with_error_handling_ok _ _ _ _ _ tt Hrun).
      * split; [reflexivity|]; split; [reflexivity|].
        exists (mkCall content true (Some fmt)), v.
        split; [exact Hcall|]; split; reflexivity.
    + destruct (Hfail e _ Hrun (Hext _ _ Hcall) eq_refl eq_refl eq_refl)
        as [p Hp].
      exists p; right; exact Hp.
Qed.

Lemma extract_recall_succeeds_or_fails_witness :
  exists p,
    (run_script extract_recall.main
       (mkWorld ["extract-recall.py"; "page.html"; "txt"]
          (fun _ => Regular (Ok "<p>Hi</p>")) (fun _ => Ok (PyStr "Hi"))) =
       (0%Z, p)
     /\ stderr p = "" /\ exit_sites p = []
     /\ exists c v, Ok (PyStr "Hi") = Ok v
                    /\ extract_calls p = [c]
                    /\ stdout p = str v ++ nl)
    \/
    (run_script extract_recall.main
       (mkWorld ["extract-recall.py"; "page.html"; "txt"]
          (fun _ => Regular (Ok "<p>Hi</p>")) (fun _ => Ok (PyStr "Hi"))) =
       (1%Z, p)
     /\ stdout p = "" /\ exit_sites p = [ErrorHandler]
     /\ exists e,
          stderr p =
            (if isinstance e ValueError || isinstance e OSError
             then "Error: " else "Unexpected error: ") ++ str_exc e ++ nl).
Proof.
  apply (extract_recall_succeeds_or_fails
           (mkWorld ["extract-recall.py"; "page.html"; "txt"]
              (fun _ => Regular (Ok "<p>Hi</p>")) (fun _ => Ok (PyStr "Hi")))).
  - simpl; intros path cause H; discriminate H.
  - simpl; intros c e H; discriminate H.
Defined.

(** ** The process of trafilatura-recall-extractor.py *)

(** The standalone script with one argument at least, case by case on what
    is at the path. *)
Lemma standalone_steps (w : World) (p : Proc) (prog path : string)
  (rest : list string) :
  sys_argv w = prog :: path :: rest ->
  trafilatura_recall_extractor.main w p =
    match fs w path with
    | Regular (Ok content) =>
        match trafilatura_extract w (mkCall content true None) with
        | Ok v => (Ok tt, printed v (called (mkCall content true None) p))
        | Raised e => (Raised e, called (mkCall content true None) p)
        end
    | Regular (Raised cause) =>
        if isinstance cause Exception
        then (Raised (mkExc SystemExit (PyInt 1) (Some cause)),
              mkProc (stdout p) (stderr p ++ "Read error: " ++ str_exc cause ++ nl)
                (extract_calls p) (exit_sites p ++ [StandaloneScript]))
        else (Raised cause, p)
    | _ =>
        (Raised (mkExc SystemExit (PyInt 1) None),
         mkProc (stdout p) (stderr p ++ "Invalid file path: " ++ path ++ nl)
           (extract_calls p) (exit_sites p ++ [StandaloneScript]))
    end.
Proof.
  intros Hargv.
  unfold trafilatura_recall_extractor.main, bind, len_sys_argv, sys_argv_at,
    path_exists, path_is_file, try_except, path_read_text, extract, print,
    stdout_write, stderr_write, sys_exit, ret, find_clause.
  exec_with Hargv.
  destruct (fs w path) as [| | |[content | cause]] eqn:Hfs; exec_with Hfs;
    try reflexivity.
  destruct (isinstance cause Exception); reflexivity.
Qed.

(** X14: started without any argument after the script name, the
    standalone script writes [Missing argument: file path] to the error
    stream and exits with status 1 from its own [main]; it looks at no
    file and does not call the collaborator. *)
Theorem standalone_missing_argument_exit :
  forall (w : World),
    length (sys_argv w) < 2 ->
    run_script trafilatura_recall_extractor.main w =
      (1%Z, mkProc "" ("Missing argument: file path" ++ nl) []
              [StandaloneScript]).
Proof.
  intros w Hlen.
  apply (run_script_eq trafilatura_recall_extractor.main w
           (Raised (mkExc SystemExit (PyInt 1) None))).
  apply (standalone_missing_argument w proc0 Hlen).
Qed.

Lemma standalone_missing_argument_exit_witness :
  run_script trafilatura_recall_extractor.main
    (mkWorld ["trafilatura-recall-extractor.py"]
       (fun _ => Regular (Ok "text")) (fun _ => Ok (PyStr "text"))) =
    (1%Z, mkProc "" ("Missing argument: file path" ++ nl) []
            [StandaloneScript]).
Proof.
  apply (standalone_missing_argument_exit
           (mkWorld ["trafilatura-recall-extractor.py"]
              (fun _ => Regular (Ok "text")) (fun _ => Ok (PyStr "text")))).
  simpl; lia.
Defined.

(** X15: the standalone script does not tell a missing path from one that
    is not a regular file: in both cases it writes [Invalid file path:
    <path>] to the error stream and exits with status 1, without calling
    the collaborator. *)
Theorem standalone_invalid_path_exit :
  forall (w : World) (prog path : string) (rest : list string),
    sys_argv w = prog :: path :: rest ->
    (forall r, fs w path <> Regular r) ->
    run_script trafilatura_recall_extractor.main w =
      (1%Z, mkProc "" ("Invalid file path: " ++ path ++ nl) []
              [StandaloneScript]).
Proof.
  intros w prog path rest Hargv Hreg.
  apply (run_script_eq trafilatura_recall_extractor.main w
           (Raised (mkExc SystemExit (PyInt 1) None))).
  apply (standalone_invalid_path w prog path rest Hargv proc0 Hreg).
Qed.

Lemma standalone_invalid_path_exit_witness :
  run_script trafilatura_recall_extractor.main
    (mkWorld ["trafilatura-recall-extractor.py"; "gone.html"]
       (fun _ => Absent) (fun _ => Ok PyNone)) =
    (1%Z, mkProc "" ("Invalid file path: " ++ "gone.html" ++ nl) []
            [StandaloneScript])
  /\
  run_script trafilatura_recall_extractor.main
    (mkWorld ["trafilatura-recall-extractor.py"; "/tmp"]
       (fun _ => Directory) (fun _ => Ok PyNone)) =
    (1%Z, mkProc "" ("Invalid file path: " ++ "/tmp" ++ nl) []
            [StandaloneScript]).
Proof.
  split.
  - apply (standalone_invalid_path_exit
             (mkWorld ["trafilatura-recall-extractor.py"; "gone.html"]
                (fun _ => Absent) (fun _ => Ok PyNone))
             "trafilatura-recall-extractor.py" "gone.html" []).
    + reflexivity.
    + simpl; intros r H; discriminate H.
  - apply (standalone_invalid_path_exit
             (mkWorld ["trafilatura-recall-extractor.py"; "/tmp"]
                (fun _ => Directory) (fun _ => Ok PyNone))
             "trafilatura-recall-extractor.py" "/tmp" []).
    + reflexivity.
    + simpl; intros r H; discriminate H.
Defined.

(** X16: when the read of an existing regular file raises an
    [Exception], the standalone script writes [Read error: <cause>] to the
    error stream and exits with status 1, without calling the
    collaborator. *)
Theorem standalone_read_error_exit :
  forall (w : World) (prog path : string) (rest : list string) (cause : pyexc),
    sys_argv w = prog :: path :: rest ->
    fs w path = Regular (Raised cause) ->
    isinstance cause Exception = true ->
    run_script trafilatura_recall_extractor.main w =
      (1%Z, mkProc "" ("Read error: " ++ str_exc cause ++ nl) []
              [StandaloneScript]).
Proof.
  intros w prog path rest cause Hargv Hfs HE.
  apply (run_script_eq trafilatura_recall_extractor.main w
           (Raised (mkExc SystemExit (PyInt 1) (Some cause)))).
  rewrite (standalone_steps w proc0 prog path rest Hargv), Hfs, HE.
  reflexivity.
Qed.

Lemma standalone_read_error_exit_witness :
  run_script trafilatura_recall_extractor.main
    (mkWorld ["trafilatura-recall-extractor.py"; "latin1.html"]
       (fun _ => Regular (Raised (new_exc UnicodeDecodeError "invalid start byte")))
       (fun _ => Ok PyNone)) =
    (1%Z, mkProc ""
            ("Read error: " ++
             str_exc (new_exc UnicodeDecodeError "invalid start byte") ++ nl)
            [] [StandaloneScript]).
Proof.
  apply (standalone_read_error_exit
           (mkWorld ["trafilatura-recall-extractor.py"; "latin1.html"]
              (fun _ => Regular (Raised (new_exc UnicodeDecodeError
                                           "invalid start byte")))
              (fun _ => Ok PyNone))
           "trafilatura-recall-extractor.py" "latin1.html" []).
  - reflexivity.
  - reflexivity.
  - reflexivity.
Defined.



(** X18: on a readable regular file, whatever value the collaborator
    returns, the standalone script prints [str] of it and a newline and
    exits with status 0; the collaborator is called once, with the
    file's content, [favor_recall=True] and no output format, whatever
    follows the path on the command line. *)
Theorem standalone_prints_value :
  forall (w : World) (prog path : string) (rest : list string)
         (content : string) (v : pyval),
    sys_argv w = prog :: path :: rest ->
    fs w path = Regular (Ok content) ->
    trafilatura_extract w (mkCall content true None) = Ok v ->
    run_script trafilatura_recall_extractor.main w =
      (0%Z, mkProc (str v ++ nl) "" [mkCall content true None] []).
Proof.
  intros w prog path rest content v Hargv Hfs Hcall.
  apply (run_script_eq trafilatura_recall_extractor.main w (Ok tt)).
  rewrite (standalone_steps w proc0 prog path rest Hargv), Hfs, Hcall.
  reflexivity.
Qed.

Lemma standalone_prints_value_witness :
  run_script trafilatura_recall_extractor.main
    (mkWorld ["trafilatura-recall-extractor.py"; "page.html"; "html"]
       (fun _ => Regular (Ok "<p>Hi</p>")) (fun _ => Ok (PyStr "Hi"))) =
    (0%Z, mkProc (str (PyStr "Hi") ++ nl) "" [mkCall "<p>Hi</p>" true None] []).
Proof.
  apply (standalone_prints_value
           (mkWorld ["trafilatura-recall-extractor.py"; "page.html"; "html"]
              (fun _ => Regular (Ok "<p>Hi</p>")) (fun _ => Ok (PyStr "Hi")))
           "trafilatura-recall-extractor.py" "page.html" ["html"] "<p>Hi</p>").
  - reflexivity.
  - reflexivity.
  - reflexivity.
Defined.

(** X19: the standalone script reads only the first argument after the
    script name: with or without further arguments it does the same thing
    (same result, same output, same collaborator call). *)
Theorem standalone_ignores_extra_arguments :
  forall (w : World) (p : Proc) (prog path : string) (extra : list string),
    trafilatura_recall_extractor.main (set_argv w (prog :: path :: extra)) p =
    trafilatura_recall_extractor.main (set_argv w [prog; path]) p.
Proof.
  intros w p prog path extra.
  rewrite (standalone_steps (set_argv w (prog :: path :: extra)) p
             prog path extra eq_refl).
  rewrite (standalone_steps (set_argv w [prog; path]) p prog path [] eq_refl).
  reflexivity.
Qed.

(** X20: with either valid format, on a readable regular file, whatever
    value the collaborator returns (a string or [None]), extract-recall.py
    prints [str] of it and a newline, writes nothing to the error stream,
    and exits with status 0 after a single collaborator call carrying the
    format of the command line. *)
Theorem extract_recall_prints_value :
  forall (w : World) (prog path fmt : string) (rest : list string)
         (content : string) (v : pyval),
    sys_argv w = prog :: path :: fmt :: rest ->
    In fmt ["html"; "txt"] ->
    fs w path = Regular (Ok content) ->
    trafilatura_extract w (mkCall content true (Some fmt)) = Ok v ->
    run_script extract_recall.main w =
      (0%Z, mkProc (str v ++ nl) "" [mkCall content true (Some fmt)] []).
Proof.
  intros w prog path fmt rest content v Hargv Hfmt Hfs Hcall.
  apply (run_script_eq extract_recall.main w (Ok tt)).
  apply run_with_error_handling_ok.
  rewrite (run_extracted w prog path fmt rest Hargv Hfmt proc0 content v
             Hfs Hcall).
  reflexivity.
Qed.

Lemma extract_recall_prints_value_witness :
  run_script extract_recall.main
    (mkWorld ["extract-recall.py"; "page.html"; "html"]
       (fun _ => Regular (Ok "<p>Hi</p>"))
       (fun _ => Ok (PyStr "<doc><p>Hi</p></doc>"))) =
    (0%Z, mkProc (str (PyStr "<doc><p>Hi</p></doc>") ++ nl) ""
            [mkCall "<p>Hi</p>" true (Some "html")] []).
Proof.
  apply (extract_recall_prints_value
           (mkWorld ["extract-recall.py"; "page.html"; "html"]
              (fun _ => Regular (Ok "<p>Hi</p>"))
              (fun _ => Ok (PyStr "<doc><p>Hi</p></doc>")))
           "extract-recall.py" "page.html" "html" [] "<p>Hi</p>").
  - reflexivity.
  - simpl; left; reflexivity.
  - reflexivity.
  - reflexivity.
Defined.
